(** * MSA301 accelerometer driver (adafruit_msa301.py)

    A shallow embedding of the CircuitPython driver for the MSA301 triaxial
    accelerometer, together with the register descriptors of
    [adafruit_register] that the driver is built from, and theorems about
    its construction, its configuration fields and its acceleration
    reading.

    Python integers are [Z]; bytes are [Z] values in [0, 256); Python
    floats are binary64 and are modelled by Rocq's primitive floats.  The
    device is a register file addressed by register number; every bus
    transaction is recorded in a trace. *)

From Stdlib Require Import ZArith Lia List String Floats.
From stdpp Require Import base gmap.

#[local] Set Warnings "-inexact-float".
Local Open Scope Z_scope.

(** ** The I2C device and the effects of the driver *)

(** One register transaction on the device: a register read of [n]
    bytes or a register write of [data], both starting at register
    [reg]. *)
Inductive event :=
| EvRead (reg : Z) (n : nat)
| EvWrite (reg : Z) (data : list Z).

(** The device as the driver sees it through [self.i2c_device]: its
    registers and the register transactions issued so far (most recent
    last).  The device is a plain register file: a write stores its
    bytes, a read returns what is stored, and the register pointer
    advances by one per byte.  Bus failures belong to the transport and
    are not modelled.  The trace records register transactions only: the
    zero-length write with which opening an [I2CDevice] probes the
    address names no register, reaches no register, and is not
    recorded. *)
Record device := Device { regs : gmap Z Z; trace : list event }.

(** The exceptions the modelled code can raise. *)
Inductive exn :=
| AttributeError (msg : string)
| StructError (msg : string).

Inductive outcome (A : Type) :=
| Return (a : A)
| Raise (e : exn).
Arguments Return {A} a.
Arguments Raise {A} e.

(** A method call: it runs against the device, may change it, and either
    returns or raises.  What was done before a raise stays done. *)
Definition io (A : Type) : Type := device -> device * outcome A.

Definition ret {A} (a : A) : io A := fun d => (d, Return a).

Definition raise {A} (e : exn) : io A := fun d => (d, Raise e).

Definition bind {A B} (m : io A) (k : A -> io B) : io B :=
  fun d =>
    match m d with
    | (d', Return a) => k a d'
    | (d', Raise e) => (d', Raise e)
    end.

Notation "x <- m ;; k" := (bind m (fun x => k))
  (at level 100, m at next level, right associativity).
Notation "m ;;; k" := (bind m (fun _ => k))
  (at level 100, right associativity).

(** The content of register [a]; a register never written reads 0. *)
Definition reg_get (m : gmap Z Z) (a : Z) : Z := default 0 (m !! a).

(** Storing [data] in consecutive registers from [a] on. *)
Fixpoint reg_store (m : gmap Z Z) (a : Z) (data : list Z) : gmap Z Z :=
  match data with
  | [] => m
  | b :: rest => reg_store (<[a := b]> m) (a + 1) rest
  end.

(** [n] consecutive registers from [a] on. *)
Fixpoint reg_load (m : gmap Z Z) (a : Z) (n : nat) : list Z :=
  match n with
  | O => []
  | S k => reg_get m a :: reg_load m (a + 1) k
  end.

(** [i2c.write_then_readinto(buffer, buffer, out_end=1, in_start=1)] with
    [buffer[0] = reg] and [len(buffer) = 1 + n]: the register pointer is
    set to [reg] and [n] bytes are read back. *)
Definition write_then_readinto (reg : Z) (n : nat) : io (list Z) :=
  fun d =>
    (Device (regs d) (trace d ++ [EvRead reg n]), Return (reg_load (regs d) reg n)).

(** [i2c.write(buffer)] with [buffer[0] = reg] and [buffer[1:] = data]. *)
Definition i2c_write (reg : Z) (data : list Z) : io unit :=
  fun d =>
    (Device (reg_store (regs d) reg data) (trace d ++ [EvWrite reg data]), Return tt).

(** The register writes among a list of transactions. *)
Definition is_write (e : event) : bool :=
  match e with
  | EvWrite _ _ => true
  | EvRead _ _ => false
  end.

Definition writes (t : list event) : list event := List.filter is_write t.

(** ** adafruit_register: the descriptors the driver declares

    The driver imports [ROUnaryStruct], [RWBit], [RWBits] and [ROBits]
    from the Adafruit register library, a dependency that is not part
    of this repository.  They are embedded here from the library's
    [i2c_struct.py], [i2c_bit.py] and [i2c_bits.py], restricted to the
    arguments the driver uses.  A descriptor keeps the register address
    in [buffer[0]] and reads into, and writes from, [buffer[1:]]. *)

(** [struct.unpack_from("<B", data)[0]]. *)
Definition unpack_B (data : list Z) : outcome Z :=
  match data with
  | b :: _ => Return b
  | [] => Raise (StructError "unpack_from requires a buffer of at least 1 bytes")
  end.

(** [ROUnaryStruct(register_address, "<B").__get__]: one byte is read at
    the register and unpacked as an unsigned char. *)
Definition ROUnaryStruct_B_get (register_address : Z) : io Z :=
  data <- write_then_readinto register_address 1 ;;
  match unpack_B data with
  | Return v => ret v
  | Raise e => raise e
  end.

(** [RWBit(register_address, bit)]: [bit_mask = 1 << bit], in a register
    of one byte. *)
Record Bit := MkBit { bit_register : Z; bit_bit_mask : Z }.

Definition RWBit (register_address bit : Z) : Bit :=
  MkBit register_address (Z.shiftl 1 bit).

Definition nth_byte (data : list Z) (i : nat) : Z := nth i data 0.

(** [RWBit.__get__]: [bool(self.buffer[1] & self.bit_mask)]. *)
Definition RWBit_get (b : Bit) : io bool :=
  data <- write_then_readinto (bit_register b) 1 ;;
  ret (negb (Z.land (nth_byte data 0) (bit_bit_mask b) =? 0)).

(** [RWBit.__set__]: the register is read, the bit is set or cleared in
    the byte read, and the byte is written back. *)
Definition RWBit_set (b : Bit) (value : bool) : io unit :=
  data <- write_then_readinto (bit_register b) 1 ;;
  let byte := nth_byte data 0 in
  let byte := if value then Z.lor byte (bit_bit_mask b)
              else Z.land byte (Z.lnot (bit_bit_mask b)) in
  i2c_write (bit_register b) [byte].

(** [RWBits(num_bits, register_address, lowest_bit, register_width)] and
    [ROBits] of the same arguments, with [lsb_first] at its default
    [True] (the driver never passes it). *)
Record Bits := MkBits {
  bit_mask : Z;
  lowest_bit : Z;
  register_address : Z;
  register_width : nat
}.

Definition RWBits (num_bits register_address lowest_bit : Z) (register_width : nat) : Bits :=
  MkBits (Z.shiftl (Z.shiftl 1 num_bits - 1) lowest_bit) lowest_bit
         register_address register_width.

Definition ROBits := RWBits.

(** The constructor raises [ValueError("Cannot have more bits than
    register size")] unless this holds. *)
Definition Bits_init_ok (b : Bits) : bool :=
  bit_mask b <? Z.shiftl 1 (Z.of_nat (register_width b) * 8).

(** The bytes read, assembled into one integer:
    [for i in range(len(buffer)-1, 0, -1): reg = (reg << 8) | buffer[i]]. *)
Definition assemble (data : list Z) : Z :=
  fold_left (fun reg byte => Z.lor (Z.shiftl reg 8) byte) (rev data) 0.

(** The integer cut back into bytes:
    [for i in range(1, len(buffer)): buffer[i] = reg & 0xFF; reg >>= 8]. *)
Fixpoint disassemble (n : nat) (reg : Z) : list Z :=
  match n with
  | O => []
  | S k => Z.land reg 255 :: disassemble k (Z.shiftr reg 8)
  end.

(** [RWBits.__get__] and [ROBits.__get__]. *)
Definition Bits_get (b : Bits) : io Z :=
  data <- write_then_readinto (register_address b) (register_width b) ;;
  let reg := assemble data in
  ret (Z.shiftr (Z.land reg (bit_mask b)) (lowest_bit b)).

(** [RWBits.__set__]: the value is shifted to its place, the register is
    read, the field's bits are cleared, the shifted value is or-ed in
    and the bytes are written back.  The value is not compared with the
    width of the field. *)
Definition Bits_set (b : Bits) (value : Z) : io unit :=
  let value := Z.shiftl value (lowest_bit b) in
  data <- write_then_readinto (register_address b) (register_width b) ;;
  let reg := assemble data in
  let reg := Z.land reg (Z.lnot (bit_mask b)) in
  let reg := Z.lor reg value in
  i2c_write (register_address b) (disassemble (register_width b) reg).

(** ** adafruit_msa301: constants and enumerations *)

Definition _MSA301_I2CADDR_DEFAULT : Z := 0x26.

Definition _MSA301_REG_PARTID : Z := 0x01.
Definition _MSA301_REG_OUT_X_L : Z := 0x02.
Definition _MSA301_REG_OUT_X_H : Z := 0x03.
Definition _MSA301_REG_OUT_Y_L : Z := 0x04.
Definition _MSA301_REG_OUT_Y_H : Z := 0x05.
Definition _MSA301_REG_OUT_Z_L : Z := 0x06.
Definition _MSA301_REG_OUT_Z_H : Z := 0x07.
Definition _MSA301_REG_RESRANGE : Z := 0x0F.
Definition _MSA301_REG_ODR : Z := 0x10.
Definition _MSA301_REG_POWERMODE : Z := 0x11.

Definition _STANDARD_GRAVITY : float := 9.806%float.

Module Mode.
Definition NORMAL : Z := 0.
Definition LOWPOWER : Z := 1.
Definition SUSPEND : Z := 2.
End Mode.

Module DataRate.
Definition RATE_1_HZ : Z := 0.
Definition RATE_1_95_HZ : Z := 1.
Definition RATE_3_9_HZ : Z := 2.
Definition RATE_7_81_HZ : Z := 3.
Definition RATE_15_63_HZ : Z := 4.
Definition RATE_31_25_HZ : Z := 5.
Definition RATE_62_5_HZ : Z := 6.
Definition RATE_125_HZ : Z := 7.
Definition RATE_250_HZ : Z := 8.
Definition RATE_500_HZ : Z := 9.
Definition RATE_1000_HZ : Z := 10.
End DataRate.

Module BandWidth.
Definition WIDTH_1_95_HZ : Z := 0.
Definition WIDTH_3_9_HZ : Z := 3.
Definition WIDTH_7_81_HZ : Z := 4.
Definition WIDTH_15_63_HZ : Z := 5.
Definition WIDTH_31_25_HZ : Z := 6.
Definition WIDTH_62_5_HZ : Z := 7.
Definition WIDTH_125_HZ : Z := 8.
Definition WIDTH_250_HZ : Z := 9.
Definition WIDTH_500_HZ : Z := 10.
End BandWidth.

Module Range.
Definition RANGE_2_G : Z := 0.
Definition RANGE_4_G : Z := 1.
Definition RANGE_8_G : Z := 2.
Definition RANGE_16_G : Z := 3.
End Range.

Module Resolution.
Definition RESOLUTION_14_BIT : Z := 0.
Definition RESOLUTION_12_BIT : Z := 1.
Definition RESOLUTION_10_BIT : Z := 2.
Definition RESOLUTION_8_BIT : Z := 3.
End Resolution.

(** ** class MSA301: the descriptors *)

Definition _disable_x : Bit := RWBit _MSA301_REG_ODR 7.
Definition _disable_y : Bit := RWBit _MSA301_REG_ODR 6.
Definition _disable_z : Bit := RWBit _MSA301_REG_ODR 5.

Definition _xyz_raw : Bits := ROBits 48 _MSA301_REG_OUT_X_L 0 6.

Definition power_mode : Bits := RWBits 2 _MSA301_REG_POWERMODE 6 1.
Definition bandwidth : Bits := RWBits 4 _MSA301_REG_POWERMODE 1 1.
Definition data_rate : Bits := RWBits 4 _MSA301_REG_ODR 0 1.
Definition range : Bits := RWBits 2 _MSA301_REG_RESRANGE 0 1.
Definition resolution : Bits := RWBits 2 _MSA301_REG_RESRANGE 2 1.

(** The five configuration fields, for statements about each of them. *)
Inductive field := PowerMode | Bandwidth | DataRate | Range | Resolution.

Definition descriptor (f : field) : Bits :=
  match f with
  | PowerMode => power_mode
  | Bandwidth => bandwidth
  | DataRate => data_rate
  | Range => range
  | Resolution => resolution
  end.

(** The [num_bits] each field is declared with. *)
Definition num_bits (f : field) : Z :=
  match f with
  | PowerMode => 2
  | Bandwidth => 4
  | DataRate => 4
  | Range => 2
  | Resolution => 2
  end.

(** ** MSA301.__init__

    [I2CDevice(i2c_bus, 0x26)] first probes the address with a
    zero-length write.  The probe is an operation on the bus but no
    register transaction: it touches no register and is not part of the
    trace, whose first entry for a construction is the part-id read.
    The chained assignment [a = b = c = False] assigns its targets left
    to right. *)

Definition MSA301_init : io unit :=
  part_id <- ROUnaryStruct_B_get _MSA301_REG_PARTID ;;
  if negb (part_id =? 0x13) then raise (AttributeError "Cannot find a MSA301")
  else
    RWBit_set _disable_x false ;;;
    RWBit_set _disable_y false ;;;
    RWBit_set _disable_z false ;;;
    Bits_set power_mode Mode.NORMAL ;;;
    Bits_set data_rate DataRate.RATE_500_HZ ;;;
    Bits_set bandwidth BandWidth.WIDTH_250_HZ ;;;
    Bits_set range Range.RANGE_4_G ;;;
    Bits_set resolution Resolution.RESOLUTION_14_BIT.

(** ** MSA301.acceleration *)

(** [bottom_byte = (raw_data >> (8*shift) & 0xFF)] for [shift] in
    [range(6)], appended in that order. *)
Definition acc_bytes (raw_data : Z) : list Z :=
  List.map (fun shift => Z.land (Z.shiftr raw_data (8 * shift)) 0xFF) [0; 1; 2; 3; 4; 5].

(** One little-endian signed short ([h] under [<]) from its two bytes. *)
Definition unpack_h (lo hi : Z) : Z :=
  let u := Z.lor lo (Z.shiftl hi 8) in
  if 0x8000 <=? u then u - 0x10000 else u.

(** [struct.unpack_from("<hhh", buffer)]. *)
Definition unpack_from_hhh (buffer : list Z) : outcome (Z * Z * Z) :=
  match buffer with
  | xl :: xh :: yl :: yh :: zl :: zh :: _ =>
      Return (unpack_h xl xh, unpack_h yl yh, unpack_h zl zh)
  | _ => Raise (StructError "unpack_from requires a buffer of at least 6 bytes")
  end.

(** The float nearest to a Python [int], as true division converts its
    integer operand (exact below 2^53 in magnitude). *)
Definition float_of_int (z : Z) : float :=
  match z with
  | Z0 => 0%float
  | Zpos _ => PrimFloat.of_uint63 (Uint63.of_Z z)
  | Zneg _ => (- PrimFloat.of_uint63 (Uint63.of_Z (- z)))%float
  end.

(** The chain of [if current_range == ...] statements. *)
Definition scale_of_range (current_range : Z) : float :=
  let scale := 1.0%float in
  let scale := if current_range =? 3 then 512.0%float else scale in
  let scale := if current_range =? 2 then 1024.0%float else scale in
  let scale := if current_range =? 1 then 2048.0%float else scale in
  let scale := if current_range =? 0 then 4096.0%float else scale in
  scale.

(** [((v>>2) / scale) * _STANDARD_GRAVITY]. *)
Definition axis_acc (v : Z) (scale : float) : float :=
  (float_of_int (Z.shiftr v 2) / scale * _STANDARD_GRAVITY)%float.

Definition acceleration : io (float * float * float) :=
  raw_data <- Bits_get _xyz_raw ;;
  match unpack_from_hhh (acc_bytes raw_data) with
  | Raise e => raise e
  | Return (x, y, z) =>
      current_range <- Bits_get range ;;
      let scale := scale_of_range current_range in
      ret (axis_acc x scale, axis_acc y scale, axis_acc z scale)
  end.

(** A device whose registers hold the given bytes and on which nothing
    has been done yet. *)
Definition fresh (l : list (Z * Z)) : device := Device (list_to_map l) [].


(** ** What the descriptors compute on a register of one byte *)

(** The value [RWBits.__get__] extracts from the byte [reg]. *)
Definition field_of (b : Bits) (reg : Z) : Z :=
  Z.shiftr (Z.land reg (bit_mask b)) (lowest_bit b).

(** The byte [RWBits.__set__] writes back when the register held [reg]. *)
Definition field_put (b : Bits) (value reg : Z) : Z :=
  Z.land (Z.lor (Z.land reg (Z.lnot (bit_mask b))) (Z.shiftl value (lowest_bit b))) 255.

(** The bits of the register a field occupies. *)
Definition in_field (f : field) (i : Z) : Prop :=
  lowest_bit (descriptor f) <= i < lowest_bit (descriptor f) + num_bits f.

(** Two fields declared in the same register. *)
Definition same_register (f g : field) : Prop :=
  register_address (descriptor f) = register_address (descriptor g).

(** The scale divisors of the four range codes, as the data sheet and
    the specification tabulate them. *)
Definition scale_divisor (r : Z) : float :=
  nth (Z.to_nat r) [4096.0; 2048.0; 1024.0; 512.0]%float 1.0%float.

(** What a register or a bytearray can hold. *)
Definition is_byte (b : Z) : Prop := 0 <= b < 256.

(** The signed reading of a 16-bit pattern [u]. *)
Definition signed16 (u : Z) : Z := if u <? 32768 then u else u - 65536.

(** ** Further vocabulary for the driver's other behaviour *)

(** The three axes and the disable bit each has in register 0x10. *)
Inductive axis := AxisX | AxisY | AxisZ.

Definition disable (ax : axis) : Bit :=
  match ax with
  | AxisX => _disable_x
  | AxisY => _disable_y
  | AxisZ => _disable_z
  end.

Definition disable_bit (ax : axis) : Z :=
  match ax with
  | AxisX => 7
  | AxisY => 6
  | AxisZ => 5
  end.

(** The named constants of the enum-like class that goes with each
    field ([Mode], [BandWidth], [DataRate], [Range], [Resolution]). *)
Definition enum_values (f : field) : list Z :=
  match f with
  | PowerMode => [Mode.NORMAL; Mode.LOWPOWER; Mode.SUSPEND]
  | Bandwidth =>
      [BandWidth.WIDTH_1_95_HZ; BandWidth.WIDTH_3_9_HZ; BandWidth.WIDTH_7_81_HZ;
       BandWidth.WIDTH_15_63_HZ; BandWidth.WIDTH_31_25_HZ; BandWidth.WIDTH_62_5_HZ;
       BandWidth.WIDTH_125_HZ; BandWidth.WIDTH_250_HZ; BandWidth.WIDTH_500_HZ]
  | DataRate =>
      [DataRate.RATE_1_HZ; DataRate.RATE_1_95_HZ; DataRate.RATE_3_9_HZ;
       DataRate.RATE_7_81_HZ; DataRate.RATE_15_63_HZ; DataRate.RATE_31_25_HZ;
       DataRate.RATE_62_5_HZ; DataRate.RATE_125_HZ; DataRate.RATE_250_HZ;
       DataRate.RATE_500_HZ; DataRate.RATE_1000_HZ]
  | Range => [Range.RANGE_2_G; Range.RANGE_4_G; Range.RANGE_8_G; Range.RANGE_16_G]
  | Resolution =>
      [Resolution.RESOLUTION_14_BIT; Resolution.RESOLUTION_12_BIT;
       Resolution.RESOLUTION_10_BIT; Resolution.RESOLUTION_8_BIT]
  end.

(** A register file in which every register holds a byte, as a real
    device's does. *)
Definition valid_regs (m : gmap Z Z) : Prop := forall a, is_byte (reg_get m a).

(** [g] sits above [f] in the register they share. *)
Definition upper_sibling (g f : field) : Prop :=
  same_register g f /\ lowest_bit (descriptor f) < lowest_bit (descriptor g).

(** The three registers the driver configures. *)
Definition config_register (a : Z) : Prop :=
  a = _MSA301_REG_RESRANGE \/ a = _MSA301_REG_ODR \/ a = _MSA301_REG_POWERMODE.

(** A method call keeps the relation [R] between the register file it
    starts from and the one it leaves. *)
Definition respects (R : gmap Z Z -> gmap Z Z -> Prop) {A} (m : io A) : Prop :=
  forall d, R (regs d) (regs (fst (m d))).

(** Register validity is kept from [m] to [m']. *)
Definition keeps_bytes (m m' : gmap Z Z) : Prop := valid_regs m -> valid_regs m'.

(** Only registers satisfying [touched] differ between [m] and [m']. *)
Definition only_touches (touched : Z -> Prop) (m m' : gmap Z Z) : Prop :=
  forall a, ~ touched a -> reg_get m' a = reg_get m a.

(** * Bit-level facts about masks and fields *)

Section BitFields.

Variables nb low : Z.
Hypothesis Hnb : 0 <= nb.
Hypothesis Hlow : 0 <= low.

Lemma mask_is_ones : Z.shiftl (Z.shiftl 1 nb - 1) low = Z.shiftl (Z.ones nb) low.
Proof. reflexivity. Qed.

Lemma testbit_mask (i : Z) :
  0 <= i ->
  Z.testbit (Z.shiftl (Z.ones nb) low) i = (low <=? i) && (i <? low + nb).
Proof.
  intros Hi. destruct (Z.leb_spec low i) as [Hle | Hlt]; simpl.
  - rewrite Z.shiftl_spec by lia.
    destruct (Z.ltb_spec i (low + nb)).
    + apply Z.ones_spec_low. lia.
    + apply Z.ones_spec_high. lia.
  - apply Z.shiftl_spec_low. lia.
Qed.

Lemma testbit_small (v i : Z) : 0 <= v < 2 ^ nb -> nb <= i -> Z.testbit v i = false.
Proof.
  intros Hv Hi. destruct (Z.eq_dec v 0) as [-> | Hne].
  - apply Z.bits_0.
  - apply Z.bits_above_log2; [lia |].
    enough (Z.log2 v < nb) by lia.
    apply Z.log2_lt_pow2; lia.
Qed.

End BitFields.

(** Case analysis on every integer comparison in the goal. *)
Ltac split_cmp :=
  repeat match goal with
         | |- context [?a <=? ?b] => destruct (Z.leb_spec a b)
         | |- context [?a <? ?b] => destruct (Z.ltb_spec a b)
         end; simpl; try lia.

Section OneByteField.

Variable b : Bits.
Variables nb low : Z.
Hypothesis Hmask : bit_mask b = Z.shiftl (Z.ones nb) low.
Hypothesis Hlowest : lowest_bit b = low.
Hypothesis Hnb : 0 <= nb.
Hypothesis Hlow : 0 <= low.

Lemma testbit_field_put (value reg i : Z) :
  0 <= i ->
  Z.testbit (field_put b value reg) i =
    ((Z.testbit reg i && negb ((low <=? i) && (i <? low + nb)))
     || ((low <=? i) && Z.testbit value (i - low))) && (i <? 8).
Proof.
  intros Hi. unfold field_put. rewrite Hmask, Hlowest.
  change 255 with (Z.ones 8).
  rewrite Z.land_spec, Z.lor_spec, Z.land_spec, Z.lnot_spec by lia.
  rewrite testbit_mask by lia.
  f_equal.
  - f_equal. destruct (Z.leb_spec low i); simpl.
    + apply Z.shiftl_spec; lia.
    + apply Z.shiftl_spec_low; lia.
  - destruct (Z.ltb_spec i 8).
    + apply Z.ones_spec_low; lia.
    + apply Z.ones_spec_high; lia.
Qed.

Lemma testbit_field_of (reg n : Z) :
  0 <= n ->
  Z.testbit (field_of b reg) n = Z.testbit reg (n + low) && (n <? nb).
Proof.
  intros Hn. unfold field_of. rewrite Hmask, Hlowest.
  rewrite Z.shiftr_spec, Z.land_spec, testbit_mask by lia.
  f_equal. split_cmp.
Qed.

(** The value read back from the byte just written. *)
Lemma field_of_put (value reg : Z) :
  low + nb <= 8 -> 0 <= value < 2 ^ nb ->
  field_of b (field_put b value reg) = value.
Proof.
  intros Hfit Hv. apply Z.bits_inj'. intros n Hn.
  rewrite testbit_field_of, testbit_field_put by lia.
  replace (n + low - low) with n by lia.
  destruct (Z.ltb_spec n nb) as [Hin | Hout].
  - split_cmp. rewrite Bool.andb_false_r. simpl.
    now rewrite !Bool.andb_true_r.
  - rewrite Bool.andb_false_r. symmetry. now apply (testbit_small nb).
Qed.

(** A bit of the byte outside the field is written back as it was read. *)
Lemma field_put_frame (value reg i : Z) :
  0 <= value < 2 ^ nb -> 0 <= i < 8 -> ~ (low <= i < low + nb) ->
  Z.testbit (field_put b value reg) i = Z.testbit reg i.
Proof.
  intros Hv Hi Hout. rewrite testbit_field_put by lia.
  destruct (Z.leb_spec low i) as [Hle | Hlt]; simpl.
  - rewrite (testbit_small nb Hnb value (i - low)) by lia.
    split_cmp. now rewrite Bool.orb_false_r, !Bool.andb_true_r.
  - split_cmp. now rewrite Bool.orb_false_r, !Bool.andb_true_r.
Qed.

End OneByteField.

(** * The register file *)

Lemma reg_get_insert_eq (m : gmap Z Z) (a x : Z) : reg_get (<[a := x]> m) a = x.
Proof. unfold reg_get. now rewrite lookup_insert_eq. Qed.

Lemma reg_get_insert_ne (m : gmap Z Z) (a a' x : Z) :
  a <> a' -> reg_get (<[a := x]> m) a' = reg_get m a'.
Proof. intros Hne. unfold reg_get. now rewrite lookup_insert_ne. Qed.

Lemma writes_app (t u : list event) : writes (t ++ u) = writes t ++ writes u.
Proof. apply List.filter_app. Qed.

(** * One step of each descriptor *)

Lemma bind_Return {A B} (m : io A) (k : A -> io B) (d d' : device) (a : A) :
  m d = (d', Return a) -> bind m k d = k a d'.
Proof. intros H. unfold bind. now rewrite H. Qed.

Lemma bind_Raise {A B} (m : io A) (k : A -> io B) (d d' : device) (e : exn) :
  m d = (d', Raise e) -> bind m k d = (d', Raise e).
Proof. intros H. unfold bind. now rewrite H. Qed.

Lemma assemble_byte (x : Z) : assemble [x] = x.
Proof. reflexivity. Qed.

Lemma ROUnaryStruct_B_get_spec (a : Z) (d : device) :
  ROUnaryStruct_B_get a d =
    (Device (regs d) (trace d ++ [EvRead a 1]), Return (reg_get (regs d) a)).
Proof. reflexivity. Qed.

Lemma Bits_get_byte (b : Bits) (d : device) :
  register_width b = 1%nat ->
  Bits_get b d =
    (Device (regs d) (trace d ++ [EvRead (register_address b) 1]),
     Return (field_of b (reg_get (regs d) (register_address b)))).
Proof. intros Hw. unfold Bits_get. rewrite Hw. reflexivity. Qed.

Lemma Bits_set_byte (b : Bits) (value : Z) (d : device) :
  register_width b = 1%nat ->
  let a := register_address b in
  let byte := field_put b value (reg_get (regs d) a) in
  Bits_set b value d =
    (Device (<[a := byte]> (regs d)) (trace d ++ [EvRead a 1; EvWrite a [byte]]),
     Return tt).
Proof.
  intros Hw a byte. unfold Bits_set. rewrite Hw.
  unfold bind, write_then_readinto, i2c_write. simpl.
  now rewrite <- app_assoc.
Qed.

Lemma RWBit_set_false (b : Bit) (d : device) :
  let a := bit_register b in
  let byte := Z.land (reg_get (regs d) a) (Z.lnot (bit_bit_mask b)) in
  RWBit_set b false d =
    (Device (<[a := byte]> (regs d)) (trace d ++ [EvRead a 1; EvWrite a [byte]]),
     Return tt).
Proof.
  intros a byte. unfold RWBit_set, bind, write_then_readinto, i2c_write. simpl.
  now rewrite <- app_assoc.
Qed.

Lemma RWBit_get_spec (b : Bit) (d : device) :
  RWBit_get b d =
    (Device (regs d) (trace d ++ [EvRead (bit_register b) 1]),
     Return (negb (Z.land (reg_get (regs d) (bit_register b)) (bit_bit_mask b) =? 0))).
Proof. reflexivity. Qed.

(** The shape of the five configuration fields: each is a span of
    [num_bits] bits inside a register of one byte. *)
Lemma field_shape (f : field) :
  bit_mask (descriptor f) = Z.shiftl (Z.ones (num_bits f)) (lowest_bit (descriptor f))
  /\ 0 <= num_bits f
  /\ 0 <= lowest_bit (descriptor f)
  /\ lowest_bit (descriptor f) + num_bits f <= 8
  /\ register_width (descriptor f) = 1%nat.
Proof. destruct f; repeat split; (reflexivity || discriminate). Qed.

(** No descriptor of the class makes its constructor raise. *)
Lemma descriptors_constructible :
  Bits_init_ok _xyz_raw = true /\ forall f, Bits_init_ok (descriptor f) = true.
Proof. split; [reflexivity | intros []; reflexivity]. Qed.

(** Two different fields of one register occupy disjoint bits. *)
Lemma fields_disjoint (f g : field) (i : Z) :
  f <> g -> same_register f g -> in_field f i -> ~ in_field g i.
Proof.
  unfold same_register, in_field.
  destruct f, g; simpl; intros Hne Hreg Hf; try congruence; try discriminate; lia.
Qed.

(** A field reads the same from two bytes that agree on its bits. *)
Lemma field_of_ext (f : field) (reg reg' : Z) :
  (forall i, in_field f i -> Z.testbit reg i = Z.testbit reg' i) ->
  field_of (descriptor f) reg = field_of (descriptor f) reg'.
Proof.
  intros Hagree.
  destruct (field_shape f) as (Hmask & Hnb & Hlow & Hfit & _).
  apply Z.bits_inj'. intros n Hn.
  rewrite !(testbit_field_of _ _ _ Hmask eq_refl Hnb Hlow) by lia.
  destruct (Z.ltb_spec n (num_bits f)).
  - f_equal. apply Hagree. unfold in_field. lia.
  - now rewrite !Bool.andb_false_r.
Qed.

(** * Configuration fields *)

(** C6: for every configuration field (power-mode, bandwidth, data-rate,
    range, resolution) and every value that fits in the field's width,
    setting the field and then reading it returns the value set. *)
Theorem field_set_get_round_trip (f : field) (v : Z) (d : device) :
  0 <= v < 2 ^ num_bits f ->
  snd ((Bits_set (descriptor f) v ;;; Bits_get (descriptor f)) d) = Return v.
Proof.
  intros Hv.
  destruct (field_shape f) as (Hmask & Hnb & Hlow & Hfit & Hw).
  rewrite (bind_Return _ _ _ _ _ (Bits_set_byte (descriptor f) v d Hw)).
  rewrite Bits_get_byte by exact Hw. simpl.
  rewrite reg_get_insert_eq. f_equal.
  now apply (field_of_put _ _ _ Hmask eq_refl Hnb Hlow).
Qed.

Lemma field_set_get_round_trip_witness :
  0 <= 9 < 2 ^ num_bits Bandwidth
  /\ snd ((Bits_set (descriptor Bandwidth) 9 ;;; Bits_get (descriptor Bandwidth))
            (fresh [(0x11, 0xFF)])) = Return 9.
Proof.
  split; [simpl; lia |].
  apply (field_set_get_round_trip Bandwidth 9 (fresh [(0x11, 0xFF)])).
  simpl; lia.
Defined.

(** C7: for every register state and every in-range value, writing a
    configuration field leaves every other bit of its register, every
    other register, and so every other field as it was; in particular
    setting power-mode leaves bandwidth unchanged, and the other way
    round. *)
Theorem field_set_preserves_siblings (f : field) (v : Z) (d : device) :
  0 <= v < 2 ^ num_bits f ->
  let a := register_address (descriptor f) in
  let d' := fst (Bits_set (descriptor f) v d) in
  (forall i, 0 <= i < 8 -> ~ in_field f i ->
             Z.testbit (reg_get (regs d') a) i = Z.testbit (reg_get (regs d) a) i)
  /\ (forall a', a' <> a -> reg_get (regs d') a' = reg_get (regs d) a')
  /\ (forall g, g <> f ->
                snd (Bits_get (descriptor g) d') = snd (Bits_get (descriptor g) d)).
Proof.
  intros Hv a d'.
  destruct (field_shape f) as (Hmask & Hnb & Hlow & Hfit & Hw).
  assert (Hregs : regs d' = <[a := field_put (descriptor f) v (reg_get (regs d) a)]> (regs d)).
  { unfold d'. now rewrite Bits_set_byte by exact Hw. }
  assert (Hbits : forall i, 0 <= i < 8 -> ~ in_field f i ->
             Z.testbit (reg_get (regs d') a) i = Z.testbit (reg_get (regs d) a) i).
  { intros i Hi Hout. rewrite Hregs, reg_get_insert_eq.
    now apply (field_put_frame _ _ _ Hmask eq_refl Hnb). }
  assert (Hother : forall a', a' <> a -> reg_get (regs d') a' = reg_get (regs d) a').
  { intros a' Hne. rewrite Hregs. now apply reg_get_insert_ne. }
  repeat split; try assumption.
  intros g Hne.
  destruct (field_shape g) as (_ & _ & Hlowg & Hfitg & Hwg).
  rewrite !Bits_get_byte by exact Hwg. simpl. f_equal.
  destruct (Z.eq_dec (register_address (descriptor g)) a) as [Heq | Hdiff].
  - rewrite Heq. apply field_of_ext. intros i Hin.
    apply Hbits.
    + unfold in_field in Hin. lia.
    + intros Hf. now apply (fields_disjoint g f i).
  - now rewrite Hother.
Qed.

Lemma field_set_preserves_siblings_witness :
  0 <= 2 < 2 ^ num_bits PowerMode
  /\ snd (Bits_get (descriptor Bandwidth)
            (fst (Bits_set (descriptor PowerMode) 2 (fresh [(0x11, 0x3E)]))))
     = snd (Bits_get (descriptor Bandwidth) (fresh [(0x11, 0x3E)])).
Proof.
  split; [simpl; lia |].
  apply (field_set_preserves_siblings PowerMode 2 (fresh [(0x11, 0x3E)])).
  - simpl; lia.
  - discriminate.
Defined.

(** C8, as the driver behaves: for every configuration field and every
    value, in range or not, setting the field raises nothing; it reads
    the register once and writes back one byte,
    [((old & ~mask) | (v << lowest_bit)) & 0xFF]. *)
Theorem field_set_never_rejects (f : field) (v : Z) (d : device) :
  let b := descriptor f in
  let a := register_address b in
  let byte := Z.land (Z.lor (Z.land (reg_get (regs d) a) (Z.lnot (bit_mask b)))
                            (Z.shiftl v (lowest_bit b))) 0xFF in
  Bits_set b v d =
    (Device (<[a := byte]> (regs d)) (trace d ++ [EvRead a 1; EvWrite a [byte]]),
     Return tt).
Proof.
  intros b a byte.
  destruct (field_shape f) as (_ & _ & _ & _ & Hw).
  exact (Bits_set_byte b v d Hw).
Qed.

(** C8, as stated, fails: power-mode has two bits, and setting it to 4
    on a device whose register 0x11 holds 0xC0 returns normally, after
    writing 0x00 over the register. *)
Lemma field_set_out_of_range_not_rejected :
  2 ^ num_bits PowerMode <= 4
  /\ reg_get (regs (fresh [(0x11, 0xC0)])) 0x11 = 0xC0
  /\ snd (Bits_set (descriptor PowerMode) 4 (fresh [(0x11, 0xC0)])) = Return tt
  /\ reg_get (regs (fst (Bits_set (descriptor PowerMode) 4 (fresh [(0x11, 0xC0)])))) 0x11 = 0
  /\ writes (trace (fst (Bits_set (descriptor PowerMode) 4 (fresh [(0x11, 0xC0)]))))
     = [EvWrite 0x11 [0]].
Proof. repeat split; (vm_compute; congruence) || reflexivity. Qed.

(** * Construction *)

(** Running [__init__] on a device that identifies as an MSA301: it
    returns, and the three registers it touches end up as the chain of
    read-modify-write steps leaves them. *)
Lemma MSA301_init_run (d : device) :
  reg_get (regs d) _MSA301_REG_PARTID = 0x13 ->
  exists d',
    MSA301_init d = (d', Return tt)
    /\ reg_get (regs d') _MSA301_REG_ODR =
         field_put data_rate 9
           (Z.land (Z.land (Z.land (reg_get (regs d) _MSA301_REG_ODR) (Z.lnot 128))
                           (Z.lnot 64)) (Z.lnot 32))
    /\ reg_get (regs d') _MSA301_REG_POWERMODE =
         field_put bandwidth 9 (field_put power_mode 0 (reg_get (regs d) _MSA301_REG_POWERMODE))
    /\ reg_get (regs d') _MSA301_REG_RESRANGE =
         field_put resolution 0 (field_put range 1 (reg_get (regs d) _MSA301_REG_RESRANGE)).
Proof.
  intros Hid. unfold MSA301_init.
  rewrite (bind_Return _ _ _ _ _ (ROUnaryStruct_B_get_spec _ d)).
  rewrite Hid. cbn [Z.eqb Pos.eqb negb].
  rewrite (bind_Return _ _ _ _ _ (RWBit_set_false _disable_x _)).
  rewrite (bind_Return _ _ _ _ _ (RWBit_set_false _disable_y _)).
  rewrite (bind_Return _ _ _ _ _ (RWBit_set_false _disable_z _)).
  rewrite (bind_Return _ _ _ _ _ (Bits_set_byte power_mode _ _ eq_refl)).
  rewrite (bind_Return _ _ _ _ _ (Bits_set_byte data_rate _ _ eq_refl)).
  rewrite (bind_Return _ _ _ _ _ (Bits_set_byte bandwidth _ _ eq_refl)).
  rewrite (bind_Return _ _ _ _ _ (Bits_set_byte range _ _ eq_refl)).
  rewrite (Bits_set_byte resolution _ _ eq_refl).
  eexists. split; [reflexivity |].
  cbn [regs trace bit_register bit_bit_mask _disable_x _disable_y _disable_z RWBit
       register_address power_mode data_rate bandwidth range resolution RWBits].
  unfold _MSA301_REG_ODR, _MSA301_REG_POWERMODE, _MSA301_REG_RESRANGE.
  repeat (rewrite ?reg_get_insert_eq; rewrite ?reg_get_insert_ne by discriminate).
  repeat split; reflexivity.
Qed.

Lemma field_of_put_same (f : field) (v reg : Z) :
  0 <= v < 2 ^ num_bits f ->
  field_of (descriptor f) (field_put (descriptor f) v reg) = v.
Proof.
  intros Hv. destruct (field_shape f) as (Hmask & Hnb & Hlow & Hfit & _).
  now apply (field_of_put _ _ _ Hmask eq_refl Hnb Hlow).
Qed.

Lemma field_of_put_other (f g : field) (v reg : Z) :
  f <> g -> same_register f g -> 0 <= v < 2 ^ num_bits g ->
  field_of (descriptor f) (field_put (descriptor g) v reg) = field_of (descriptor f) reg.
Proof.
  intros Hne Hreg Hv.
  destruct (field_shape g) as (Hmask & Hnb & Hlow & Hfit & _).
  destruct (field_shape f) as (_ & _ & Hlowf & Hfitf & _).
  apply field_of_ext. intros i Hin.
  apply (field_put_frame _ _ _ Hmask eq_refl Hnb); trivial.
  - unfold in_field in Hin. lia.
  - now apply (fields_disjoint f g i).
Qed.

Lemma land_bit_clear (x k : Z) :
  0 <= k -> Z.testbit x k = false -> Z.land x (Z.shiftl 1 k) = 0.
Proof.
  intros Hk Hbit. apply Z.bits_inj'. intros n Hn.
  rewrite Z.land_spec, Z.bits_0, Z.shiftl_1_l, Z.pow2_bits_eqb by lia.
  destruct (Z.eqb_spec k n) as [-> | _].
  - now rewrite Hbit.
  - apply Bool.andb_false_r.
Qed.

(** C4: for every value other than 0x13 read from the part-id register,
    construction fails with the driver's device-not-found error
    ([AttributeError("Cannot find a MSA301")]); the one transaction it
    issued is the part-id read, so no register is written and the
    register state is as before. *)
Theorem init_rejects_wrong_part_id (d : device) (v : Z) :
  reg_get (regs d) _MSA301_REG_PARTID = v ->
  v <> 0x13 ->
  snd (MSA301_init d) = Raise (AttributeError "Cannot find a MSA301")
  /\ trace (fst (MSA301_init d)) = trace d ++ [EvRead _MSA301_REG_PARTID 1]
  /\ writes (trace (fst (MSA301_init d))) = writes (trace d)
  /\ regs (fst (MSA301_init d)) = regs d.
Proof.
  intros Hv Hne. unfold MSA301_init.
  rewrite (bind_Return _ _ _ _ _ (ROUnaryStruct_B_get_spec _ d)).
  rewrite Hv. destruct (Z.eqb_spec v 0x13) as [Heq | _]; [contradiction |].
  cbn [negb raise fst snd trace regs]. repeat split.
  rewrite writes_app. cbn. apply app_nil_r.
Qed.

Lemma init_rejects_wrong_part_id_witness :
  reg_get (regs (fresh [(0x01, 0x12); (0x11, 0xDE)])) _MSA301_REG_PARTID = 0x12
  /\ 0x12 <> 0x13
  /\ snd (MSA301_init (fresh [(0x01, 0x12); (0x11, 0xDE)]))
     = Raise (AttributeError "Cannot find a MSA301").
Proof.
  split; [reflexivity |]. split; [discriminate |].
  apply (init_rejects_wrong_part_id (fresh [(0x01, 0x12); (0x11, 0xDE)]) 0x12).
  - reflexivity.
  - discriminate.
Defined.

(** C5: when the part-id register reads 0x13, construction returns, and
    afterwards power-mode reads NORMAL (0b00), data-rate reads 0b1001
    (500 Hz), bandwidth reads 0b1001 (250 Hz), range reads 0b01 (+-4g)
    and resolution reads 0b00 (14 bit). *)
Theorem init_applies_defaults (d : device) :
  reg_get (regs d) _MSA301_REG_PARTID = 0x13 ->
  let d' := fst (MSA301_init d) in
  snd (MSA301_init d) = Return tt
  /\ snd (Bits_get power_mode d') = Return 0
  /\ snd (Bits_get data_rate d') = Return 9
  /\ snd (Bits_get bandwidth d') = Return 9
  /\ snd (Bits_get range d') = Return 1
  /\ snd (Bits_get resolution d') = Return 0.
Proof.
  intros Hid d'. subst d'.
  destruct (MSA301_init_run d Hid) as (d' & -> & Hodr & Hpm & Hrr).
  cbn [fst snd]. split; [reflexivity |].
  rewrite !Bits_get_byte by reflexivity. cbn [snd].
  change (register_address power_mode) with _MSA301_REG_POWERMODE.
  change (register_address bandwidth) with _MSA301_REG_POWERMODE.
  change (register_address data_rate) with _MSA301_REG_ODR.
  change (register_address range) with _MSA301_REG_RESRANGE.
  change (register_address resolution) with _MSA301_REG_RESRANGE.
  rewrite Hodr, Hpm, Hrr.
  repeat split; f_equal.
  - rewrite (field_of_put_other PowerMode Bandwidth) by (discriminate || reflexivity || (simpl; lia)).
    apply (field_of_put_same PowerMode). simpl; lia.
  - apply (field_of_put_same DataRate). simpl; lia.
  - apply (field_of_put_same Bandwidth). simpl; lia.
  - rewrite (field_of_put_other Range Resolution) by (discriminate || reflexivity || (simpl; lia)).
    apply (field_of_put_same Range). simpl; lia.
  - apply (field_of_put_same Resolution). simpl; lia.
Qed.

Lemma init_applies_defaults_witness :
  reg_get (regs (fresh [(0x01, 0x13); (0x0F, 0xFF); (0x10, 0xFF); (0x11, 0xFF)]))
    _MSA301_REG_PARTID = 0x13
  /\ snd (Bits_get range
            (fst (MSA301_init (fresh [(0x01, 0x13); (0x0F, 0xFF); (0x10, 0xFF); (0x11, 0xFF)]))))
     = Return 1.
Proof.
  split; [reflexivity |].
  apply (init_applies_defaults (fresh [(0x01, 0x13); (0x0F, 0xFF); (0x10, 0xFF); (0x11, 0xFF)])).
  reflexivity.
Defined.

(** C9: when construction succeeds, bits 7, 6 and 5 of register 0x10
    (the per-axis disable bits) are 0 afterwards, so each of
    [_disable_x], [_disable_y] and [_disable_z] reads [False]: all three
    axes are enabled. *)
Theorem init_enables_all_axes (d : device) :
  reg_get (regs d) _MSA301_REG_PARTID = 0x13 ->
  let d' := fst (MSA301_init d) in
  snd (MSA301_init d) = Return tt
  /\ (forall k, 5 <= k <= 7 -> Z.testbit (reg_get (regs d') _MSA301_REG_ODR) k = false)
  /\ snd (RWBit_get _disable_x d') = Return false
  /\ snd (RWBit_get _disable_y d') = Return false
  /\ snd (RWBit_get _disable_z d') = Return false.
Proof.
  intros Hid d'. subst d'.
  destruct (MSA301_init_run d Hid) as (d' & -> & Hodr & _ & _).
  cbn [fst snd]. split; [reflexivity |].
  assert (Hbits : forall k, 5 <= k <= 7 ->
                    Z.testbit (reg_get (regs d') _MSA301_REG_ODR) k = false).
  { intros k Hk. rewrite Hodr.
    destruct (field_shape DataRate) as (Hmask & Hnb & _).
    rewrite (field_put_frame _ _ _ Hmask eq_refl Hnb) by (simpl; lia).
    rewrite !Z.land_spec, !Z.lnot_spec by lia.
    assert (k = 5 \/ k = 6 \/ k = 7) as [-> | [-> | ->]] by lia; cbn;
      now rewrite ?Bool.andb_false_r. }
  split; [exact Hbits |].
  rewrite !RWBit_get_spec. cbn [snd].
  repeat split; f_equal;
    cbn [bit_register bit_bit_mask _disable_x _disable_y _disable_z RWBit];
    rewrite land_bit_clear; try reflexivity; try lia; apply Hbits; lia.
Qed.

Lemma init_enables_all_axes_witness :
  reg_get (regs (fresh [(0x01, 0x13); (0x10, 0xFF)])) _MSA301_REG_PARTID = 0x13
  /\ snd (RWBit_get _disable_x (fst (MSA301_init (fresh [(0x01, 0x13); (0x10, 0xFF)]))))
     = Return false.
Proof.
  split; [reflexivity |].
  apply (init_enables_all_axes (fresh [(0x01, 0x13); (0x10, 0xFF)])).
  reflexivity.
Defined.

(** * The acceleration reading *)

Lemma lor_shiftl_byte (a b : Z) : is_byte b -> Z.lor (Z.shiftl a 8) b = a * 256 + b.
Proof.
  intros Hb.
  assert (Hdisj : Z.land (Z.shiftl a 8) b = 0).
  { apply Z.bits_inj'. intros n Hn. rewrite Z.land_spec, Z.bits_0.
    destruct (Z.ltb_spec n 8).
    - now rewrite Z.shiftl_spec_low by lia.
    - rewrite (testbit_small 8 ltac:(lia) b n) by (assumption || lia).
      apply Bool.andb_false_r. }
  rewrite <- Z.lxor_lor, <- Z.add_nocarry_lxor by exact Hdisj.
  now rewrite Z.shiftl_mul_pow2 by lia.
Qed.

(** The 48-bit integer [ROBits.__get__] builds has the first byte read
    as its least significant byte. *)
Lemma assemble_six (b0 b1 b2 b3 b4 b5 : Z) :
  Forall is_byte [b0; b1; b2; b3; b4; b5] ->
  assemble [b0; b1; b2; b3; b4; b5] =
    b0 + 2 ^ 8 * b1 + 2 ^ 16 * b2 + 2 ^ 24 * b3 + 2 ^ 32 * b4 + 2 ^ 40 * b5.
Proof.
  intros Hall.
  repeat match goal with
         | H : Forall _ (_ :: _) |- _ => apply Forall_cons_iff in H; destruct H
         end.
  unfold assemble. cbn [rev app fold_left].
  rewrite !lor_shiftl_byte by assumption. lia.
Qed.

Lemma byte_of_sum (raw k : Z) :
  0 <= k -> Z.land (Z.shiftr raw (8 * k)) 0xFF = (raw / 2 ^ (8 * k)) mod 256.
Proof.
  intros Hk. rewrite Z.shiftr_div_pow2 by lia.
  change 0xFF with (Z.ones 8). now rewrite Z.land_ones by lia.
Qed.

(** Shifting the bytes out again gives them back in the order read. *)
Lemma acc_bytes_assemble (b0 b1 b2 b3 b4 b5 : Z) :
  Forall is_byte [b0; b1; b2; b3; b4; b5] ->
  acc_bytes (assemble [b0; b1; b2; b3; b4; b5]) = [b0; b1; b2; b3; b4; b5].
Proof.
  intros Hall. rewrite assemble_six by assumption.
  repeat match goal with
         | H : Forall _ (_ :: _) |- _ => apply Forall_cons_iff in H; destruct H
         end.
  unfold is_byte in *.
  unfold acc_bytes. cbn [List.map]. rewrite !byte_of_sum by lia.
  change (8 * 0) with 0. change (8 * 1) with 8. change (8 * 2) with 16.
  change (8 * 3) with 24. change (8 * 4) with 32. change (8 * 5) with 40.
  change (2 ^ 0) with 1. change (2 ^ 8) with 256. change (2 ^ 16) with 65536.
  change (2 ^ 24) with 16777216. change (2 ^ 32) with 4294967296.
  change (2 ^ 40) with 1099511627776.
  repeat f_equal; Z.div_mod_to_equations; lia.
Qed.

Lemma unpack_h_signed16 (lo hi : Z) :
  is_byte lo -> is_byte hi -> unpack_h lo hi = signed16 (lo + 256 * hi).
Proof.
  intros Hlo Hhi. unfold unpack_h, signed16.
  rewrite Z.lor_comm, lor_shiftl_byte by assumption.
  replace (hi * 256 + lo) with (lo + 256 * hi) by lia.
  split_cmp; reflexivity.
Qed.

Lemma signed16_range (lo hi : Z) :
  is_byte lo -> is_byte hi -> -32768 <= signed16 (lo + 256 * hi) < 32768.
Proof. unfold is_byte, signed16. intros Hlo Hhi. split_cmp. Qed.

(** The range field only ever reads one of the four range codes, and on
    each the chain of tests selects the tabulated divisor. *)
Lemma range_code_bounds (reg : Z) : 0 <= field_of range reg <= 3.
Proof.
  unfold field_of. cbn [bit_mask lowest_bit range RWBits].
  rewrite Z.shiftr_0_r.
  change (Z.shiftl (Z.shiftl 1 2 - 1) 0) with (Z.ones 2).
  rewrite Z.land_ones by lia. change (2 ^ 2) with 4.
  pose proof (Z.mod_pos_bound reg 4). lia.
Qed.

Lemma scale_of_range_table (r : Z) : 0 <= r <= 3 -> scale_of_range r = scale_divisor r.
Proof.
  intros Hr.
  assert (r = 0 \/ r = 1 \/ r = 2 \/ r = 3) as [-> | [-> | [-> | ->]]] by lia;
    reflexivity.
Qed.

Lemma Bits_get_spec (b : Bits) (d : device) :
  Bits_get b d =
    (Device (regs d) (trace d ++ [EvRead (register_address b) (register_width b)]),
     Return (field_of b (assemble (reg_load (regs d) (register_address b) (register_width b))))).
Proof. reflexivity. Qed.

(** What one call of [acceleration] does and returns, in terms of the
    registers: two reads and no write. *)
Lemma acceleration_run (d : device) :
  exists x y z,
    unpack_from_hhh
      (acc_bytes (field_of _xyz_raw (assemble (reg_load (regs d) _MSA301_REG_OUT_X_L 6))))
      = Return (x, y, z)
    /\ acceleration d =
         (Device (regs d)
                 (trace d ++ [EvRead _MSA301_REG_OUT_X_L 6; EvRead _MSA301_REG_RESRANGE 1]),
          let scale := scale_of_range (field_of range (reg_get (regs d) _MSA301_REG_RESRANGE)) in
          Return (axis_acc x scale, axis_acc y scale, axis_acc z scale)).
Proof.
  do 3 eexists. split; [reflexivity |].
  unfold acceleration.
  rewrite (bind_Return _ _ _ _ _ (Bits_get_spec _xyz_raw d)).
  unfold acc_bytes, unpack_from_hhh. cbn [List.map].
  rewrite (bind_Return _ _ _ _ _ (Bits_get_byte range _ eq_refl)).
  unfold ret. cbn [regs trace]. now rewrite <- app_assoc.
Qed.

(** Six bytes fill the 48 bits of [_xyz_raw]: its mask takes nothing away. *)
Lemma xyz_raw_field (b0 b1 b2 b3 b4 b5 : Z) :
  Forall is_byte [b0; b1; b2; b3; b4; b5] ->
  field_of _xyz_raw (assemble [b0; b1; b2; b3; b4; b5]) = assemble [b0; b1; b2; b3; b4; b5].
Proof.
  intros Hall. unfold field_of. cbn [bit_mask lowest_bit _xyz_raw ROBits RWBits].
  rewrite Z.shiftr_0_r.
  change (Z.shiftl (Z.shiftl 1 48 - 1) 0) with (Z.ones 48).
  rewrite Z.land_ones by lia. apply Z.mod_small.
  rewrite assemble_six by assumption.
  repeat match goal with
         | H : Forall _ (_ :: _) |- _ => apply Forall_cons_iff in H; destruct H
         end.
  unfold is_byte in *. lia.
Qed.

Lemma unpack_registers (xl xh yl yh zl zh : Z) :
  Forall is_byte [xl; xh; yl; yh; zl; zh] ->
  unpack_from_hhh (acc_bytes (field_of _xyz_raw (assemble [xl; xh; yl; yh; zl; zh]))) =
    Return (signed16 (xl + 256 * xh), signed16 (yl + 256 * yh), signed16 (zl + 256 * zh)).
Proof.
  intros Hall. rewrite xyz_raw_field, acc_bytes_assemble by assumption.
  repeat match goal with
         | H : Forall _ (_ :: _) |- _ => apply Forall_cons_iff in H; destruct H
         end.
  unfold unpack_from_hhh. now rewrite !unpack_h_signed16 by assumption.
Qed.

(** The reading on a device whose output registers hold six bytes. *)
Lemma acceleration_value (d : device) (xl xh yl yh zl zh : Z) :
  Forall is_byte [xl; xh; yl; yh; zl; zh] ->
  reg_load (regs d) _MSA301_REG_OUT_X_L 6 = [xl; xh; yl; yh; zl; zh] ->
  let scale := scale_of_range (field_of range (reg_get (regs d) _MSA301_REG_RESRANGE)) in
  snd (acceleration d) =
    Return (axis_acc (signed16 (xl + 256 * xh)) scale,
            axis_acc (signed16 (yl + 256 * yh)) scale,
            axis_acc (signed16 (zl + 256 * zh)) scale).
Proof.
  intros Hall Hregs scale.
  destruct (acceleration_run d) as (x & y & z & Hunpack & ->).
  rewrite Hregs, unpack_registers in Hunpack by assumption.
  injection Hunpack as <- <- <-. reflexivity.
Qed.

(** C1: whatever six bytes the output registers hold, and whichever
    range code r the range field reads at that moment, r is one of 0, 1,
    2, 3, the scale chosen is entry r of 4096.0, 2048.0, 1024.0, 512.0,
    and [acceleration] returns, per axis,
    (shifted_value / divisor) * 9.806, where shifted_value is the signed
    16-bit reading of the axis shifted right by two. *)
Theorem acceleration_scales_by_range (d : device) (r xl xh yl yh zl zh : Z) :
  Forall is_byte [xl; xh; yl; yh; zl; zh] ->
  reg_load (regs d) _MSA301_REG_OUT_X_L 6 = [xl; xh; yl; yh; zl; zh] ->
  snd (Bits_get range d) = Return r ->
  let mps2 (shifted_value : Z) : float :=
    (float_of_int shifted_value / scale_divisor r * 9.806)%float in
  0 <= r <= 3
  /\ scale_of_range r = scale_divisor r
  /\ snd (acceleration d) =
       Return (mps2 (Z.shiftr (signed16 (xl + 256 * xh)) 2),
               mps2 (Z.shiftr (signed16 (yl + 256 * yh)) 2),
               mps2 (Z.shiftr (signed16 (zl + 256 * zh)) 2)).
Proof.
  intros Hall Hregs Hrange mps2.
  rewrite Bits_get_byte in Hrange by reflexivity. cbn [snd] in Hrange.
  injection Hrange as Hr.
  change (register_address range) with _MSA301_REG_RESRANGE in Hr.
  assert (Hbounds : 0 <= r <= 3) by (rewrite <- Hr; apply range_code_bounds).
  split; [exact Hbounds |].
  split; [now apply scale_of_range_table |].
  destruct (acceleration_run d) as (x & y & z & Hunpack & ->).
  rewrite Hregs, unpack_registers in Hunpack by assumption.
  injection Hunpack as <- <- <-.
  cbn [snd]. rewrite Hr, scale_of_range_table by exact Hbounds.
  reflexivity.
Qed.

(** The end-to-end example: X bytes 0x04, 0x00 at range +-4g give
    x = (1 / 2048) * 9.806. *)
Lemma acceleration_scales_by_range_witness :
  Forall is_byte [0x04; 0x00; 0xFC; 0xFF; 0x00; 0x80]
  /\ reg_load (regs (fresh [(2, 0x04); (4, 0xFC); (5, 0xFF); (7, 0x80); (0x0F, 0x01)]))
       _MSA301_REG_OUT_X_L 6 = [0x04; 0x00; 0xFC; 0xFF; 0x00; 0x80]
  /\ snd (Bits_get range (fresh [(2, 0x04); (4, 0xFC); (5, 0xFF); (7, 0x80); (0x0F, 0x01)]))
     = Return 1
  /\ snd (acceleration (fresh [(2, 0x04); (4, 0xFC); (5, 0xFF); (7, 0x80); (0x0F, 0x01)])) =
       Return ((1 / 2048 * 9.806)%float, (-1 / 2048 * 9.806)%float,
               (-8192 / 2048 * 9.806)%float).
Proof.
  assert (Hbytes : Forall is_byte [0x04; 0x00; 0xFC; 0xFF; 0x00; 0x80])
    by (repeat constructor; unfold is_byte; lia).
  split; [exact Hbytes |]. split; [reflexivity |]. split; [reflexivity |].
  apply (acceleration_scales_by_range
           (fresh [(2, 0x04); (4, 0xFC); (5, 0xFF); (7, 0x80); (0x0F, 0x01)])
           1 0x04 0x00 0xFC 0xFF 0x00 0x80 Hbytes eq_refl eq_refl).
Defined.

(** C2: for every six bytes held by registers 0x02 to 0x07,
    [acceleration] reads them in one transaction in ascending register
    order and rebuilds three little-endian signed 16-bit integers, low
    byte then high byte per axis, axes in the order X, Y, Z: the triple
    it returns is the conversion of exactly those three integers, X
    first, and the bytes it unpacks are the bytes read, in the order
    read. *)
Theorem acceleration_unpacks_little_endian (d : device) (xl xh yl yh zl zh : Z) :
  Forall is_byte [xl; xh; yl; yh; zl; zh] ->
  reg_load (regs d) _MSA301_REG_OUT_X_L 6 = [xl; xh; yl; yh; zl; zh] ->
  let x := signed16 (xl + 256 * xh) in
  let y := signed16 (yl + 256 * yh) in
  let z := signed16 (zl + 256 * zh) in
  let scale := scale_of_range (field_of range (reg_get (regs d) _MSA301_REG_RESRANGE)) in
  acceleration d =
    (Device (regs d) (trace d ++ [EvRead 0x02 6; EvRead 0x0F 1]),
     Return (axis_acc x scale, axis_acc y scale, axis_acc z scale))
  /\ (exists raw_data,
        Bits_get _xyz_raw d =
          (Device (regs d) (trace d ++ [EvRead 0x02 6]), Return raw_data)
        /\ acc_bytes raw_data = [xl; xh; yl; yh; zl; zh]
        /\ unpack_from_hhh (acc_bytes raw_data) = Return (x, y, z))
  /\ (-32768 <= x < 32768 /\ -32768 <= y < 32768 /\ -32768 <= z < 32768).
Proof.
  intros Hall Hregs x y z scale.
  pose proof (unpack_registers _ _ _ _ _ _ Hall) as Hunpack.
  split; [| split].
  - destruct (acceleration_run d) as (x' & y' & z' & Hun & ->).
    rewrite Hregs, Hunpack in Hun. injection Hun as <- <- <-.
    reflexivity.
  - eexists. split; [apply Bits_get_spec |].
    cbn [register_address register_width _xyz_raw ROBits RWBits].
    rewrite Hregs, xyz_raw_field by assumption.
    split; [now apply acc_bytes_assemble |].
    now rewrite <- (xyz_raw_field _ _ _ _ _ _ Hall).
  - repeat match goal with
           | H : Forall _ (_ :: _) |- _ => apply Forall_cons_iff in H; destruct H
           end.
    repeat split; now apply signed16_range.
Qed.

(** X bytes 0x34, 0x12 are 0x1234 = 4660 (not 0x3412), Y bytes 0xFC,
    0xFF are -4 and Z bytes 0x00, 0x80 are -32768; at range +-2g the
    reading is (1165 / 4096, -1 / 4096, -8192 / 4096) * 9.806. *)
Lemma acceleration_unpacks_little_endian_witness :
  Forall is_byte [0x34; 0x12; 0xFC; 0xFF; 0x00; 0x80]
  /\ reg_load (regs (fresh [(2, 0x34); (3, 0x12); (4, 0xFC); (5, 0xFF); (7, 0x80)]))
       _MSA301_REG_OUT_X_L 6 = [0x34; 0x12; 0xFC; 0xFF; 0x00; 0x80]
  /\ snd (acceleration (fresh [(2, 0x34); (3, 0x12); (4, 0xFC); (5, 0xFF); (7, 0x80)])) =
       Return ((1165 / 4096 * 9.806)%float, (-1 / 4096 * 9.806)%float,
               (-8192 / 4096 * 9.806)%float).
Proof.
  assert (Hbytes : Forall is_byte [0x34; 0x12; 0xFC; 0xFF; 0x00; 0x80])
    by (repeat constructor; unfold is_byte; lia).
  split; [exact Hbytes |]. split; [reflexivity |].
  exact (f_equal snd
           (proj1 (acceleration_unpacks_little_endian
                     (fresh [(2, 0x34); (3, 0x12); (4, 0xFC); (5, 0xFF); (7, 0x80)])
                     0x34 0x12 0xFC 0xFF 0x00 0x80 Hbytes eq_refl))).
Defined.

(** C3: the shift by two in [acceleration] is arithmetic: for every six
    bytes in the output registers, the value [acceleration] returns for
    an axis is the conversion of the floor of v / 4 (Rocq's [/] on [Z]
    is floor division), where v is the axis's signed 16-bit value; that
    quotient is what [>> 2] gives, it has the sign of v and lies in the
    signed 14-bit range.  The pattern 0xFFFC is -4 and its shift is -1,
    not the 16383 a shift of the unsigned pattern would give. *)
Theorem shift_right_is_arithmetic (d : device) (xl xh yl yh zl zh : Z) :
  Forall is_byte [xl; xh; yl; yh; zl; zh] ->
  reg_load (regs d) _MSA301_REG_OUT_X_L 6 = [xl; xh; yl; yh; zl; zh] ->
  let x := signed16 (xl + 256 * xh) in
  let y := signed16 (yl + 256 * yh) in
  let z := signed16 (zl + 256 * zh) in
  let scale := scale_of_range (field_of range (reg_get (regs d) _MSA301_REG_RESRANGE)) in
  let mps2 (v : Z) : float := (float_of_int (v / 4) / scale * 9.806)%float in
  snd (acceleration d) = Return (mps2 x, mps2 y, mps2 z)
  /\ Forall (fun v => Z.shiftr v 2 = v / 4
                      /\ 4 * (v / 4) <= v < 4 * (v / 4) + 4
                      /\ -8192 <= v / 4 < 8192
                      /\ (v / 4 < 0 <-> v < 0)) [x; y; z]
  /\ signed16 (0xFC + 256 * 0xFF) = -4
  /\ Z.shiftr (signed16 (0xFC + 256 * 0xFF)) 2 = -1.
Proof.
  intros Hall Hregs x y z scale mps2.
  assert (Hshift : forall v, Z.shiftr v 2 = v / 4)
    by (intros v; now rewrite Z.shiftr_div_pow2 by lia).
  split; [| split; [| split; reflexivity]].
  - rewrite (acceleration_value d _ _ _ _ _ _ Hall Hregs).
    unfold mps2, axis_acc. now rewrite !Hshift.
  - repeat match goal with
           | H : Forall _ (_ :: _) |- _ => apply Forall_cons_iff in H; destruct H
           end.
    assert (Hx : -32768 <= x < 32768) by now apply signed16_range.
    assert (Hy : -32768 <= y < 32768) by now apply signed16_range.
    assert (Hz : -32768 <= z < 32768) by now apply signed16_range.
    assert (Hv : forall v, -32768 <= v < 32768 ->
                 Z.shiftr v 2 = v / 4
                 /\ 4 * (v / 4) <= v < 4 * (v / 4) + 4
                 /\ -8192 <= v / 4 < 8192
                 /\ (v / 4 < 0 <-> v < 0)).
    { intros v Hrange. split; [apply Hshift |]. Z.div_mod_to_equations. lia. }
    repeat (constructor; [now apply Hv |]). constructor.
Qed.

(** X bytes 0xFC, 0xFF (the pattern 0xFFFC) at range +-4g read as
    (-1 / 2048) * 9.806, a small negative acceleration. *)
Lemma shift_right_is_arithmetic_witness :
  Forall is_byte [0xFC; 0xFF; 0x04; 0x00; 0x00; 0x00]
  /\ reg_load (regs (fresh [(2, 0xFC); (3, 0xFF); (4, 0x04); (0x0F, 0x01)]))
       _MSA301_REG_OUT_X_L 6 = [0xFC; 0xFF; 0x04; 0x00; 0x00; 0x00]
  /\ snd (acceleration (fresh [(2, 0xFC); (3, 0xFF); (4, 0x04); (0x0F, 0x01)])) =
       Return ((-1 / 2048 * 9.806)%float, (1 / 2048 * 9.806)%float,
               (0 / 2048 * 9.806)%float).
Proof.
  assert (Hbytes : Forall is_byte [0xFC; 0xFF; 0x04; 0x00; 0x00; 0x00])
    by (repeat constructor; unfold is_byte; lia).
  split; [exact Hbytes |]. split; [reflexivity |].
  exact (proj1 (shift_right_is_arithmetic
                  (fresh [(2, 0xFC); (3, 0xFF); (4, 0x04); (0x0F, 0x01)])
                  0xFC 0xFF 0x04 0x00 0x00 0x00 Hbytes eq_refl)).
Defined.

(** C10: on every device, one call of [acceleration] returns after
    exactly two transactions, both register reads (six bytes from 0x02,
    one byte from 0x0F); it issues no write and every register is as it
    was. *)
Theorem acceleration_reads_only (d : device) :
  (exists xyz, snd (acceleration d) = Return xyz)
  /\ trace (fst (acceleration d)) =
       trace d ++ [EvRead _MSA301_REG_OUT_X_L 6; EvRead _MSA301_REG_RESRANGE 1]
  /\ writes (trace (fst (acceleration d))) = writes (trace d)
  /\ regs (fst (acceleration d)) = regs d.
Proof.
  destruct (acceleration_run d) as (x & y & z & _ & ->).
  cbn [fst snd regs trace]. repeat split.
  - eexists. reflexivity.
  - rewrite writes_app. cbn. apply app_nil_r.
Qed.

(** * Field writes with arbitrary values *)

Lemma field_of_put_mod (b : Bits) (nb low value reg : Z) :
  bit_mask b = Z.shiftl (Z.ones nb) low -> lowest_bit b = low ->
  0 <= nb -> 0 <= low -> low + nb <= 8 ->
  field_of b (field_put b value reg) = value mod 2 ^ nb.
Proof.
  intros Hmask Hlowest Hnb Hlow Hfit. apply Z.bits_inj'. intros n Hn.
  rewrite (testbit_field_of _ _ _ Hmask Hlowest Hnb Hlow) by lia.
  rewrite (testbit_field_put _ _ _ Hmask Hlowest Hnb) by lia.
  replace (n + low - low) with n by lia.
  destruct (Z.ltb_spec n nb) as [Hin | Hout].
  - rewrite Z.mod_pow2_bits_low by lia.
    split_cmp. rewrite Bool.andb_false_r. simpl. now rewrite !Bool.andb_true_r.
  - rewrite Z.mod_pow2_bits_high by lia. apply Bool.andb_false_r.
Qed.

(** X1: for every configuration field, every integer value (in range,
    too large or negative) and every register state, setting the field
    and reading it back returns the value reduced modulo 2^width. *)
Theorem field_set_get_wraps (f : field) (v : Z) (d : device) :
  snd ((Bits_set (descriptor f) v ;;; Bits_get (descriptor f)) d)
  = Return (v mod 2 ^ num_bits f).
Proof.
  destruct (field_shape f) as (Hmask & Hnb & Hlow & Hfit & Hw).
  rewrite (bind_Return _ _ _ _ _ (Bits_set_byte (descriptor f) v d Hw)).
  rewrite Bits_get_byte by exact Hw. simpl.
  rewrite reg_get_insert_eq. f_equal.
  exact (field_of_put_mod _ _ _ _ _ Hmask eq_refl Hnb Hlow Hfit).
Qed.

(** X2: for every field, every integer value and every bit i of the
    field's register (0 <= i < 8), after the field is set the bit is:
    the old bit when i lies below the field, bit (i - lowest_bit) of the
    value when i lies in the field, and the old bit or-ed with bit
    (i - lowest_bit) of the value when i lies above the field; so the
    excess bits of an oversized value are only ever or-ed into the bits
    above the field. *)
Theorem field_set_bits (f : field) (v : Z) (d : device) (i : Z) :
  0 <= i < 8 ->
  let b := descriptor f in
  let a := register_address b in
  let old := reg_get (regs d) a in
  Z.testbit (reg_get (regs (fst (Bits_set b v d))) a) i =
    if i <? lowest_bit b then Z.testbit old i
    else if i <? lowest_bit b + num_bits f then Z.testbit v (i - lowest_bit b)
    else Z.testbit old i || Z.testbit v (i - lowest_bit b).
Proof.
  intros Hi b a old.
  destruct (field_shape f) as (Hmask & Hnb & Hlow & Hfit & Hw).
  unfold b, a. rewrite Bits_set_byte by exact Hw. cbn [fst regs].
  rewrite reg_get_insert_eq.
  rewrite (testbit_field_put _ _ _ Hmask eq_refl Hnb) by lia.
  fold b a old.
  destruct (Z.ltb_spec i (lowest_bit b)) as [Hbelow | Hge].
  - destruct (Z.leb_spec (lowest_bit b) i); [lia |].
    destruct (Z.ltb_spec i 8); [| lia].
    cbn. now rewrite Bool.orb_false_r, !Bool.andb_true_r.
  - destruct (Z.leb_spec (lowest_bit b) i); [| lia].
    destruct (Z.ltb_spec i 8); [| lia].
    destruct (Z.ltb_spec i (lowest_bit b + num_bits f)); cbn;
      now rewrite ?Bool.andb_false_r, ?Bool.andb_true_r.
Qed.

(** Data-rate 41 (0b101001) does not fit in four bits: its bit 5 is
    or-ed into bit 5 of register 0x10, the Z-axis disable bit. *)
Lemma field_set_bits_witness :
  0 <= 5 < 8
  /\ Z.testbit (reg_get (regs (fst (Bits_set (descriptor DataRate) 41 (fresh [(0x10, 0x09)]))))
                        (register_address (descriptor DataRate))) 5 = true.
Proof.
  split; [lia |].
  rewrite (field_set_bits DataRate 41 (fresh [(0x10, 0x09)]) 5) by lia.
  reflexivity.
Defined.

Lemma field_put_low_bits (f : field) (v reg i : Z) :
  0 <= i < lowest_bit (descriptor f) ->
  Z.testbit (field_put (descriptor f) v reg) i = Z.testbit reg i.
Proof.
  intros Hi.
  destruct (field_shape f) as (Hmask & Hnb & Hlow & Hfit & _).
  rewrite (testbit_field_put _ _ _ Hmask eq_refl Hnb) by lia.
  destruct (Z.leb_spec (lowest_bit (descriptor f)) i); [lia |].
  destruct (Z.ltb_spec i 8); [| lia].
  cbn. now rewrite Bool.orb_false_r, !Bool.andb_true_r.
Qed.

Lemma lower_sibling_below (f g : field) (i : Z) :
  g <> f -> same_register g f -> ~ upper_sibling g f -> in_field g i ->
  0 <= i < lowest_bit (descriptor f).
Proof.
  unfold upper_sibling, same_register, in_field.
  destruct f, g; simpl; intros Hne Hreg Hup Hin;
    try congruence; try discriminate; try lia.
Qed.

(** X3: for every field f and every integer value, however large,
    setting f leaves unchanged the reading of every other field g that
    is in another register or sits below f in the same register; only a
    field above f can be disturbed by an oversized value. *)
Theorem field_set_keeps_lower_fields (f g : field) (v : Z) (d : device) :
  g <> f -> ~ upper_sibling g f ->
  snd (Bits_get (descriptor g) (fst (Bits_set (descriptor f) v d)))
  = snd (Bits_get (descriptor g) d).
Proof.
  intros Hne Hup.
  destruct (field_shape f) as (_ & _ & _ & _ & Hw).
  destruct (field_shape g) as (_ & _ & _ & _ & Hwg).
  rewrite Bits_set_byte by exact Hw. cbn [fst].
  rewrite !Bits_get_byte by exact Hwg. cbn [snd regs]. f_equal.
  destruct (Z.eq_dec (register_address (descriptor g)) (register_address (descriptor f)))
    as [Heq | Hdiff].
  - rewrite Heq, reg_get_insert_eq. apply field_of_ext. intros i Hin.
    apply field_put_low_bits. now apply (lower_sibling_below f g).
  - now rewrite reg_get_insert_ne by congruence.
Qed.

(** Bandwidth 0xFF is far too large for four bits, yet range, in another
    register, reads as before. *)
Lemma field_set_keeps_lower_fields_witness :
  Range <> Bandwidth /\ ~ upper_sibling Range Bandwidth
  /\ snd (Bits_get (descriptor Range)
            (fst (Bits_set (descriptor Bandwidth) 0xFF (fresh [(0x0F, 0x02); (0x11, 0x00)]))))
     = snd (Bits_get (descriptor Range) (fresh [(0x0F, 0x02); (0x11, 0x00)])).
Proof.
  assert (Hne : Range <> Bandwidth) by discriminate.
  assert (Hup : ~ upper_sibling Range Bandwidth)
    by (intros [Hreg _]; discriminate Hreg).
  split; [exact Hne |]. split; [exact Hup |].
  exact (field_set_keeps_lower_fields Bandwidth Range 0xFF
           (fresh [(0x0F, 0x02); (0x11, 0x00)]) Hne Hup).
Defined.

Lemma reg_load_ext (m m' : gmap Z Z) (n : nat) (a : Z) :
  (forall k, a <= k < a + Z.of_nat n -> reg_get m' k = reg_get m k) ->
  reg_load m' a n = reg_load m a n.
Proof.
  revert a. induction n as [| n IH]; intros a Hsame; [reflexivity |].
  cbn [reg_load]. f_equal.
  - apply Hsame. lia.
  - apply IH. intros k Hk. apply Hsame. lia.
Qed.

(** Two devices that agree on the six output registers and on the range
    field give the same reading. *)
Lemma acceleration_ext (d d' : device) :
  reg_load (regs d') _MSA301_REG_OUT_X_L 6 = reg_load (regs d) _MSA301_REG_OUT_X_L 6 ->
  field_of range (reg_get (regs d') _MSA301_REG_RESRANGE)
  = field_of range (reg_get (regs d) _MSA301_REG_RESRANGE) ->
  snd (acceleration d') = snd (acceleration d).
Proof.
  intros Hout Hrange.
  destruct (acceleration_run d) as (x & y & z & Hun & ->).
  destruct (acceleration_run d') as (x' & y' & z' & Hun' & ->).
  rewrite Hout, Hun in Hun'. injection Hun' as <- <- <-.
  cbn [snd]. now rewrite Hrange.
Qed.

(** X4: the reading does not depend on power-mode, bandwidth, data-rate
    or resolution: for each of these fields and every integer value,
    [acceleration] returns the same triple after the field is set as
    before.  In particular the resolution setting plays no part in the
    conversion, which always shifts by two. *)
Theorem acceleration_ignores_other_fields (f : field) (v : Z) (d : device) :
  f <> Range ->
  snd (acceleration (fst (Bits_set (descriptor f) v d))) = snd (acceleration d).
Proof.
  intros Hne.
  destruct (field_shape f) as (_ & _ & _ & _ & Hw).
  apply acceleration_ext.
  - apply reg_load_ext. intros k Hk.
    rewrite Bits_set_byte by exact Hw. cbn [fst regs].
    apply reg_get_insert_ne.
    unfold _MSA301_REG_OUT_X_L in Hk. change (Z.of_nat 6) with 6 in Hk.
    destruct f; cbn; unfold _MSA301_REG_POWERMODE, _MSA301_REG_ODR, _MSA301_REG_RESRANGE; lia.
  - assert (Hup : ~ upper_sibling Range f).
    { unfold upper_sibling. destruct f; cbn; lia. }
    pose proof (field_put_low_bits f v) as Hlow.
    rewrite Bits_set_byte by exact Hw. cbn [fst regs].
    destruct (Z.eq_dec (register_address (descriptor f)) _MSA301_REG_RESRANGE)
      as [Heq | Hdiff].
    + rewrite Heq, reg_get_insert_eq.
      apply (field_of_ext Range). intros i Hin.
      apply Hlow. apply (lower_sibling_below f Range); trivial.
      * congruence.
      * unfold same_register. now rewrite Heq.
    + now rewrite reg_get_insert_ne.
Qed.

Lemma acceleration_ignores_other_fields_witness :
  Resolution <> Range
  /\ snd (acceleration
            (fst (Bits_set (descriptor Resolution) Resolution.RESOLUTION_8_BIT
                    (fresh [(2, 0x04); (0x0F, 0x01)]))))
     = snd (acceleration (fresh [(2, 0x04); (0x0F, 0x01)])).
Proof.
  assert (Hne : Resolution <> Range) by discriminate.
  split; [exact Hne |].
  exact (acceleration_ignores_other_fields Resolution Resolution.RESOLUTION_8_BIT
           (fresh [(2, 0x04); (0x0F, 0x01)]) Hne).
Defined.

(** * The disable bits *)

Lemma RWBit_set_spec (b : Bit) (value : bool) (d : device) :
  let a := bit_register b in
  let old := reg_get (regs d) a in
  let byte := if value then Z.lor old (bit_bit_mask b)
              else Z.land old (Z.lnot (bit_bit_mask b)) in
  RWBit_set b value d =
    (Device (<[a := byte]> (regs d)) (trace d ++ [EvRead a 1; EvWrite a [byte]]),
     Return tt).
Proof.
  intros a old byte. unfold RWBit_set, bind, write_then_readinto, i2c_write. simpl.
  now rewrite <- app_assoc.
Qed.

Lemma land_bit_testbit (x k : Z) :
  0 <= k -> negb (Z.land x (Z.shiftl 1 k) =? 0) = Z.testbit x k.
Proof.
  intros Hk. destruct (Z.testbit x k) eqn:Hbit.
  - destruct (Z.eqb_spec (Z.land x (Z.shiftl 1 k)) 0) as [Hzero | _]; [| reflexivity].
    assert (Hk' : Z.testbit (Z.land x (Z.shiftl 1 k)) k = true).
    { rewrite Z.land_spec, Hbit, Z.shiftl_1_l. now rewrite Z.pow2_bits_true. }
    rewrite Hzero, Z.bits_0 in Hk'. discriminate.
  - now rewrite land_bit_clear.
Qed.

Lemma testbit_set_bit (x k i : Z) (value : bool) :
  0 <= k -> 0 <= i ->
  Z.testbit (if value then Z.lor x (Z.shiftl 1 k)
             else Z.land x (Z.lnot (Z.shiftl 1 k))) i =
    if i =? k then value else Z.testbit x i.
Proof.
  intros Hk Hi. rewrite Z.shiftl_1_l.
  destruct value; rewrite ?Z.lor_spec, ?Z.land_spec, ?Z.lnot_spec by lia;
    rewrite Z.pow2_bits_eqb by lia; rewrite (Z.eqb_sym k i);
    destruct (i =? k); cbn;
    now rewrite ?Bool.orb_false_r, ?Bool.orb_true_r, ?Bool.andb_false_r, ?Bool.andb_true_r.
Qed.

Lemma disable_shape (ax : axis) :
  bit_register (disable ax) = _MSA301_REG_ODR
  /\ bit_bit_mask (disable ax) = Z.shiftl 1 (disable_bit ax)
  /\ 5 <= disable_bit ax <= 7.
Proof. destruct ax; repeat split; cbn; lia. Qed.

(** X5: for each axis and either value, setting the axis's disable bit
    returns, the bit then reads the value set, every other bit of
    register 0x10 and every other register is unchanged, and so the
    other two disable bits and data-rate read as before. *)
Theorem disable_bit_set_get (ax : axis) (value : bool) (d : device) :
  let d' := fst (RWBit_set (disable ax) value d) in
  snd (RWBit_set (disable ax) value d) = Return tt
  /\ snd (RWBit_get (disable ax) d') = Return value
  /\ (forall i, 0 <= i -> i <> disable_bit ax ->
        Z.testbit (reg_get (regs d') _MSA301_REG_ODR) i
        = Z.testbit (reg_get (regs d) _MSA301_REG_ODR) i)
  /\ (forall a, a <> _MSA301_REG_ODR -> reg_get (regs d') a = reg_get (regs d) a)
  /\ (forall ax', ax' <> ax ->
        snd (RWBit_get (disable ax') d') = snd (RWBit_get (disable ax') d))
  /\ snd (Bits_get data_rate d') = snd (Bits_get data_rate d).
Proof.
  intros d'. subst d'.
  destruct (disable_shape ax) as (Hreg & Hmask & Hk).
  rewrite RWBit_set_spec, Hreg, Hmask. cbn [fst snd regs].
  assert (Hbits : forall i, 0 <= i ->
            Z.testbit (reg_get (<[_MSA301_REG_ODR :=
                         if value
                         then Z.lor (reg_get (regs d) _MSA301_REG_ODR)
                                    (Z.shiftl 1 (disable_bit ax))
                         else Z.land (reg_get (regs d) _MSA301_REG_ODR)
                                     (Z.lnot (Z.shiftl 1 (disable_bit ax)))]> (regs d))
                         _MSA301_REG_ODR) i
            = if i =? disable_bit ax then value
              else Z.testbit (reg_get (regs d) _MSA301_REG_ODR) i).
  { intros i Hi. rewrite reg_get_insert_eq. apply testbit_set_bit; lia. }
  split; [reflexivity |]. split; [| split; [| split; [| split]]].
  - rewrite RWBit_get_spec, Hreg, Hmask. cbn [snd regs]. f_equal.
    rewrite land_bit_testbit, Hbits by lia. now rewrite Z.eqb_refl.
  - intros i Hi Hne. rewrite Hbits by lia.
    now destruct (Z.eqb_spec i (disable_bit ax)).
  - intros a Hne. now apply reg_get_insert_ne.
  - intros ax' Hne.
    destruct (disable_shape ax') as (Hreg' & Hmask' & Hk').
    rewrite !RWBit_get_spec, Hreg', Hmask'. cbn [snd regs]. f_equal.
    rewrite !land_bit_testbit, Hbits by lia.
    destruct (Z.eqb_spec (disable_bit ax') (disable_bit ax)) as [Heq | _]; [| reflexivity].
    destruct ax, ax'; cbn in Heq; congruence || lia.
  - rewrite !Bits_get_byte by reflexivity. cbn [snd regs]. f_equal.
    change (register_address data_rate) with _MSA301_REG_ODR.
    apply (field_of_ext DataRate). intros i Hin.
    unfold in_field in Hin. cbn in Hin.
    rewrite Hbits by lia.
    destruct (Z.eqb_spec i (disable_bit ax)); [lia | reflexivity].
Qed.

(** * Relations every step of a method keeps *)

Section Respects.

Variable R : gmap Z Z -> gmap Z Z -> Prop.
Hypothesis R_refl : forall m, R m m.
Hypothesis R_trans : forall m1 m2 m3, R m1 m2 -> R m2 m3 -> R m1 m3.

Lemma respects_ret {A} (a : A) : respects R (ret a).
Proof. intros d. apply R_refl. Qed.

Lemma respects_raise {A} (e : exn) : respects R (@raise A e).
Proof. intros d. apply R_refl. Qed.

Lemma respects_read (reg : Z) (n : nat) : respects R (write_then_readinto reg n).
Proof. intros d. apply R_refl. Qed.

Lemma respects_bind {A B} (m : io A) (k : A -> io B) :
  respects R m -> (forall a, respects R (k a)) -> respects R (bind m k).
Proof.
  intros Hm Hk d. unfold bind. specialize (Hm d).
  destruct (m d) as [d1 [a | e]]; cbn [fst] in *.
  - eapply R_trans; [exact Hm | apply Hk].
  - exact Hm.
Qed.

Lemma respects_Bits_get (b : Bits) : respects R (Bits_get b).
Proof. intros d. apply R_refl. Qed.

Lemma respects_RWBit_get (b : Bit) : respects R (RWBit_get b).
Proof. intros d. apply R_refl. Qed.

(** Construction keeps whatever its eight writes keep. *)
Lemma respects_MSA301_init :
  (forall ax value, respects R (RWBit_set (disable ax) value)) ->
  (forall f v, respects R (Bits_set (descriptor f) v)) ->
  respects R MSA301_init.
Proof.
  intros Hbit Hfield. unfold MSA301_init.
  apply respects_bind.
  - unfold ROUnaryStruct_B_get. apply respects_bind; [apply respects_read |].
    intros data. destruct (unpack_B data); [apply respects_ret | apply respects_raise].
  - intros part_id. destruct (negb (part_id =? 19)); [apply respects_raise |].
    apply respects_bind; [apply (Hbit AxisX) | intros _].
    apply respects_bind; [apply (Hbit AxisY) | intros _].
    apply respects_bind; [apply (Hbit AxisZ) | intros _].
    apply respects_bind; [apply (Hfield PowerMode) | intros _].
    apply respects_bind; [apply (Hfield DataRate) | intros _].
    apply respects_bind; [apply (Hfield Bandwidth) | intros _].
    apply respects_bind; [apply (Hfield Range) | intros _].
    apply (Hfield Resolution).
Qed.

Lemma respects_acceleration : respects R acceleration.
Proof.
  intros d. destruct (acceleration_run d) as (x & y & z & _ & ->). apply R_refl.
Qed.

End Respects.

(** * Registers stay bytes *)

Lemma keeps_bytes_refl (m : gmap Z Z) : keeps_bytes m m.
Proof. intros H. exact H. Qed.

Lemma keeps_bytes_trans (m1 m2 m3 : gmap Z Z) :
  keeps_bytes m1 m2 -> keeps_bytes m2 m3 -> keeps_bytes m1 m3.
Proof. unfold keeps_bytes. auto. Qed.

Lemma valid_regs_insert (m : gmap Z Z) (a x : Z) :
  valid_regs m -> is_byte x -> valid_regs (<[a := x]> m).
Proof.
  intros Hm Hx a'. destruct (Z.eq_dec a a') as [<- | Hne].
  - now rewrite reg_get_insert_eq.
  - rewrite reg_get_insert_ne by exact Hne. apply Hm.
Qed.

Lemma is_byte_land_255 (x : Z) : is_byte (Z.land x 255).
Proof.
  unfold is_byte. change 255 with (Z.ones 8). rewrite Z.land_ones by lia.
  apply Z.mod_pos_bound. lia.
Qed.

Lemma is_byte_iff_land (x : Z) : is_byte x <-> Z.land x 255 = x.
Proof.
  split.
  - intros Hx. change 255 with (Z.ones 8). rewrite Z.land_ones by lia.
    now apply Z.mod_small.
  - intros <-. apply is_byte_land_255.
Qed.

Lemma is_byte_set_bit (x k : Z) (value : bool) :
  is_byte x -> 0 <= k < 8 ->
  is_byte (if value then Z.lor x (Z.shiftl 1 k) else Z.land x (Z.lnot (Z.shiftl 1 k))).
Proof.
  intros Hx Hk. apply is_byte_iff_land. apply Z.bits_inj'. intros n Hn.
  rewrite Z.land_spec, testbit_set_bit by lia.
  change 255 with (Z.ones 8).
  destruct (Z.ltb_spec n 8) as [Hlt | Hge].
  - rewrite Z.ones_spec_low by lia. apply Bool.andb_true_r.
  - rewrite Z.ones_spec_high by lia.
    destruct (Z.eqb_spec n k); [lia |].
    rewrite (testbit_small 8 ltac:(lia) x n) by (exact Hx || lia). reflexivity.
Qed.

Lemma valid_regs_fresh (l : list (Z * Z)) :
  Forall (fun p => is_byte (snd p)) l -> valid_regs (regs (fresh l)).
Proof.
  induction 1 as [| [a x] l Hx _ IH].
  - intros a. unfold reg_get. cbn. rewrite lookup_empty. cbn. unfold is_byte. lia.
  - apply (valid_regs_insert _ a x IH Hx).
Qed.

(** X6: on a device whose registers all hold bytes, they still all hold
    bytes after any field is set to any integer value, after any disable
    bit is set, after construction (whether it succeeds or raises) and
    after [acceleration]: no byte outside 0..255 ever reaches a
    register. *)
Theorem registers_stay_bytes (d : device) :
  valid_regs (regs d) ->
  (forall f v, valid_regs (regs (fst (Bits_set (descriptor f) v d))))
  /\ (forall ax value, valid_regs (regs (fst (RWBit_set (disable ax) value d))))
  /\ valid_regs (regs (fst (MSA301_init d)))
  /\ valid_regs (regs (fst (acceleration d))).
Proof.
  assert (Hfield : forall f v, respects keeps_bytes (Bits_set (descriptor f) v)).
  { intros f v d0 Hd0.
    destruct (field_shape f) as (_ & _ & _ & _ & Hw).
    rewrite Bits_set_byte by exact Hw. cbn [fst regs].
    apply valid_regs_insert; [exact Hd0 | apply is_byte_land_255]. }
  assert (Hbit : forall ax value, respects keeps_bytes (RWBit_set (disable ax) value)).
  { intros ax value d0 Hd0.
    destruct (disable_shape ax) as (Hreg & Hmask & Hk).
    rewrite RWBit_set_spec, Hmask. cbn [fst regs].
    apply valid_regs_insert; [exact Hd0 |].
    apply is_byte_set_bit; [apply Hd0 | lia]. }
  intros Hd. split; [| split; [| split]].
  - intros f v. now apply Hfield.
  - intros ax value. now apply Hbit.
  - now apply (respects_MSA301_init keeps_bytes keeps_bytes_refl keeps_bytes_trans Hbit Hfield).
  - now apply (respects_acceleration keeps_bytes keeps_bytes_refl).
Qed.

Lemma registers_stay_bytes_witness :
  valid_regs (regs (fresh [(0x01, 0x13); (0x10, 0xFF)]))
  /\ valid_regs (regs (fst (MSA301_init (fresh [(0x01, 0x13); (0x10, 0xFF)])))).
Proof.
  assert (Hvalid : valid_regs (regs (fresh [(0x01, 0x13); (0x10, 0xFF)])))
    by (apply valid_regs_fresh; repeat constructor; cbn; lia).
  split; [exact Hvalid |].
  exact (proj1 (proj2 (proj2 (registers_stay_bytes _ Hvalid)))).
Defined.

(** * What construction does to the device *)

(** X7: the register transactions of a successful construction (the
    ones that follow the address probe of [I2CDevice], which names no
    register) are exactly seventeen: the part-id read, then eight
    one-byte register writes, each directly preceded by a one-byte read
    of the register it writes, to registers 0x10, 0x10, 0x10 (the three
    disable bits), 0x11 (power-mode), 0x10 (data-rate), 0x11
    (bandwidth), 0x0F (range) and 0x0F (resolution), in that order. *)
Theorem init_transactions (d : device) :
  reg_get (regs d) _MSA301_REG_PARTID = 0x13 ->
  exists b1 b2 b3 b4 b5 b6 b7 b8,
    trace (fst (MSA301_init d)) =
      trace d ++
      [EvRead _MSA301_REG_PARTID 1;
       EvRead _MSA301_REG_ODR 1; EvWrite _MSA301_REG_ODR [b1];
       EvRead _MSA301_REG_ODR 1; EvWrite _MSA301_REG_ODR [b2];
       EvRead _MSA301_REG_ODR 1; EvWrite _MSA301_REG_ODR [b3];
       EvRead _MSA301_REG_POWERMODE 1; EvWrite _MSA301_REG_POWERMODE [b4];
       EvRead _MSA301_REG_ODR 1; EvWrite _MSA301_REG_ODR [b5];
       EvRead _MSA301_REG_POWERMODE 1; EvWrite _MSA301_REG_POWERMODE [b6];
       EvRead _MSA301_REG_RESRANGE 1; EvWrite _MSA301_REG_RESRANGE [b7];
       EvRead _MSA301_REG_RESRANGE 1; EvWrite _MSA301_REG_RESRANGE [b8]].
Proof.
  intros Hid. unfold MSA301_init.
  rewrite (bind_Return _ _ _ _ _ (ROUnaryStruct_B_get_spec _ d)).
  rewrite Hid. cbn [Z.eqb Pos.eqb negb].
  rewrite (bind_Return _ _ _ _ _ (RWBit_set_false _disable_x _)).
  rewrite (bind_Return _ _ _ _ _ (RWBit_set_false _disable_y _)).
  rewrite (bind_Return _ _ _ _ _ (RWBit_set_false _disable_z _)).
  rewrite (bind_Return _ _ _ _ _ (Bits_set_byte power_mode _ _ eq_refl)).
  rewrite (bind_Return _ _ _ _ _ (Bits_set_byte data_rate _ _ eq_refl)).
  rewrite (bind_Return _ _ _ _ _ (Bits_set_byte bandwidth _ _ eq_refl)).
  rewrite (bind_Return _ _ _ _ _ (Bits_set_byte range _ _ eq_refl)).
  rewrite (Bits_set_byte resolution _ _ eq_refl).
  cbn [fst trace]. rewrite <- !app_assoc. cbn [app].
  do 8 eexists. reflexivity.
Qed.

Lemma init_transactions_witness :
  reg_get (regs (fresh [(0x01, 0x13)])) _MSA301_REG_PARTID = 0x13
  /\ exists b1 b2 b3 b4 b5 b6 b7 b8,
    trace (fst (MSA301_init (fresh [(0x01, 0x13)]))) =
      trace (fresh [(0x01, 0x13)]) ++
      [EvRead _MSA301_REG_PARTID 1;
       EvRead _MSA301_REG_ODR 1; EvWrite _MSA301_REG_ODR [b1];
       EvRead _MSA301_REG_ODR 1; EvWrite _MSA301_REG_ODR [b2];
       EvRead _MSA301_REG_ODR 1; EvWrite _MSA301_REG_ODR [b3];
       EvRead _MSA301_REG_POWERMODE 1; EvWrite _MSA301_REG_POWERMODE [b4];
       EvRead _MSA301_REG_ODR 1; EvWrite _MSA301_REG_ODR [b5];
       EvRead _MSA301_REG_POWERMODE 1; EvWrite _MSA301_REG_POWERMODE [b6];
       EvRead _MSA301_REG_RESRANGE 1; EvWrite _MSA301_REG_RESRANGE [b7];
       EvRead _MSA301_REG_RESRANGE 1; EvWrite _MSA301_REG_RESRANGE [b8]].
Proof.
  split; [reflexivity |].
  exact (init_transactions (fresh [(0x01, 0x13)]) eq_refl).
Defined.

Lemma only_touches_refl (touched : Z -> Prop) (m : gmap Z Z) : only_touches touched m m.
Proof. intros a _. reflexivity. Qed.

Lemma only_touches_trans (touched : Z -> Prop) (m1 m2 m3 : gmap Z Z) :
  only_touches touched m1 m2 -> only_touches touched m2 m3 -> only_touches touched m1 m3.
Proof. intros H12 H23 a Ha. now rewrite H23, H12. Qed.

(** Construction, whether it succeeds or raises, changes no register
    other than 0x0F, 0x10 and 0x11. *)
Lemma MSA301_init_only_config (d : device) (a : Z) :
  ~ config_register a -> reg_get (regs (fst (MSA301_init d))) a = reg_get (regs d) a.
Proof.
  revert a.
  apply (respects_MSA301_init (only_touches config_register)
           (only_touches_refl _) (only_touches_trans _)).
  - intros ax value d0 a Ha.
    destruct (disable_shape ax) as (Hreg & _ & _).
    rewrite RWBit_set_spec, Hreg. cbn [fst regs].
    apply reg_get_insert_ne. intros <-. apply Ha. unfold config_register. tauto.
  - intros f v d0 a Ha.
    destruct (field_shape f) as (_ & _ & _ & _ & Hw).
    rewrite Bits_set_byte by exact Hw. cbn [fst regs].
    apply reg_get_insert_ne. intros <-. apply Ha.
    unfold config_register. destruct f; cbn; tauto.
Qed.

(** X8: construction leaves alone everything that is not a
    configuration bit: every register other than 0x0F, 0x10 and 0x11,
    and, when it succeeds, bit 4 of register 0x10, bits 0 and 5 of
    register 0x11 and bits 4 to 7 of register 0x0F. *)
Theorem init_footprint (d : device) :
  reg_get (regs d) _MSA301_REG_PARTID = 0x13 ->
  let d' := fst (MSA301_init d) in
  (forall a, ~ config_register a -> reg_get (regs d') a = reg_get (regs d) a)
  /\ Z.testbit (reg_get (regs d') _MSA301_REG_ODR) 4
     = Z.testbit (reg_get (regs d) _MSA301_REG_ODR) 4
  /\ (forall i, i = 0 \/ i = 5 ->
        Z.testbit (reg_get (regs d') _MSA301_REG_POWERMODE) i
        = Z.testbit (reg_get (regs d) _MSA301_REG_POWERMODE) i)
  /\ (forall i, 4 <= i < 8 ->
        Z.testbit (reg_get (regs d') _MSA301_REG_RESRANGE) i
        = Z.testbit (reg_get (regs d) _MSA301_REG_RESRANGE) i).
Proof.
  intros Hid d'.
  split; [intros a Ha; now apply MSA301_init_only_config |].
  subst d'. destruct (MSA301_init_run d Hid) as (d' & -> & Hodr & Hpm & Hrr).
  cbn [fst]. rewrite Hodr, Hpm, Hrr.
  destruct (field_shape DataRate) as (Hmdr & Hndr & _).
  destruct (field_shape PowerMode) as (Hmpm & Hnpm & _).
  destruct (field_shape Bandwidth) as (Hmbw & Hnbw & _).
  destruct (field_shape Range) as (Hmrg & Hnrg & _).
  destruct (field_shape Resolution) as (Hmrs & Hnrs & _).
  split; [| split].
  - rewrite (field_put_frame _ _ _ Hmdr eq_refl Hndr) by (cbn; lia).
    rewrite !Z.land_spec, !Z.lnot_spec by lia. cbn.
    now rewrite !Bool.andb_true_r.
  - intros i Hi.
    rewrite (field_put_frame _ _ _ Hmbw eq_refl Hnbw) by (cbn; lia).
    now rewrite (field_put_frame _ _ _ Hmpm eq_refl Hnpm) by (cbn; lia).
  - intros i Hi.
    rewrite (field_put_frame _ _ _ Hmrs eq_refl Hnrs) by (cbn; lia).
    now rewrite (field_put_frame _ _ _ Hmrg eq_refl Hnrg) by (cbn; lia).
Qed.

Lemma init_footprint_witness :
  reg_get (regs (fresh [(0x01, 0x13); (0x10, 0xFF); (0x2A, 0x55)])) _MSA301_REG_PARTID = 0x13
  /\ Z.testbit (reg_get (regs (fst (MSA301_init (fresh [(0x01, 0x13); (0x10, 0xFF); (0x2A, 0x55)]))))
                        _MSA301_REG_ODR) 4
     = Z.testbit (reg_get (regs (fresh [(0x01, 0x13); (0x10, 0xFF); (0x2A, 0x55)]))
                          _MSA301_REG_ODR) 4.
Proof.
  split; [reflexivity |].
  exact (proj1 (proj2 (init_footprint (fresh [(0x01, 0x13); (0x10, 0xFF); (0x2A, 0x55)])
                         eq_refl))).
Defined.

(** * Writing back what was read *)

Lemma field_put_of (f : field) (reg : Z) :
  is_byte reg -> field_put (descriptor f) (field_of (descriptor f) reg) reg = reg.
Proof.
  intros Hreg.
  destruct (field_shape f) as (Hmask & Hnb & Hlow & Hfit & _).
  apply Z.bits_inj'. intros n Hn.
  rewrite (testbit_field_put _ _ _ Hmask eq_refl Hnb) by lia.
  destruct (Z.ltb_spec n 8) as [Hlt | Hge].
  - rewrite Bool.andb_true_r.
    destruct (Z.leb_spec (lowest_bit (descriptor f)) n) as [Hle | Hbelow]; cbn.
    + rewrite (testbit_field_of _ _ _ Hmask eq_refl Hnb Hlow) by lia.
      replace (n - lowest_bit (descriptor f) + lowest_bit (descriptor f)) with n by lia.
      destruct (Z.ltb_spec n (lowest_bit (descriptor f) + num_bits f));
        destruct (Z.ltb_spec (n - lowest_bit (descriptor f)) (num_bits f)); try lia; cbn;
        now rewrite ?Bool.andb_false_r, ?Bool.andb_true_r, ?Bool.orb_false_r.
    + now rewrite Bool.orb_false_r, Bool.andb_true_r.
  - rewrite Bool.andb_false_r. symmetry.
    apply (testbit_small 8); (exact Hreg || lia).
Qed.

(** X9: on a register that holds a byte, reading a field and setting it
    to the value just read leaves every register as it was (the byte
    written back is the byte read). *)
Theorem field_get_set_identity (f : field) (d : device) :
  is_byte (reg_get (regs d) (register_address (descriptor f))) ->
  snd ((v <- Bits_get (descriptor f) ;; Bits_set (descriptor f) v) d) = Return tt
  /\ forall a,
      reg_get (regs (fst ((v <- Bits_get (descriptor f) ;; Bits_set (descriptor f) v) d))) a
      = reg_get (regs d) a.
Proof.
  intros Hbyte.
  destruct (field_shape f) as (_ & _ & _ & _ & Hw).
  rewrite (bind_Return _ _ _ _ _ (Bits_get_byte (descriptor f) d Hw)).
  rewrite Bits_set_byte by exact Hw. cbn [fst snd regs].
  split; [reflexivity |]. intros a.
  destruct (Z.eq_dec (register_address (descriptor f)) a) as [<- | Hne].
  - rewrite reg_get_insert_eq. now apply field_put_of.
  - now apply reg_get_insert_ne.
Qed.

Lemma field_get_set_identity_witness :
  is_byte (reg_get (regs (fresh [(0x11, 0xA5)])) (register_address (descriptor Bandwidth)))
  /\ reg_get (regs (fst ((v <- Bits_get (descriptor Bandwidth) ;;
                          Bits_set (descriptor Bandwidth) v) (fresh [(0x11, 0xA5)])))) 0x11
     = reg_get (regs (fresh [(0x11, 0xA5)])) 0x11.
Proof.
  assert (Hbyte : is_byte (reg_get (regs (fresh [(0x11, 0xA5)]))
                                   (register_address (descriptor Bandwidth))))
    by (replace (reg_get _ _) with 0xA5 by reflexivity; unfold is_byte; lia).
  split; [exact Hbyte |].
  exact (proj2 (field_get_set_identity Bandwidth (fresh [(0x11, 0xA5)]) Hbyte) 0x11).
Defined.

Lemma land_lnot_bit_clear (x k : Z) :
  0 <= k -> Z.testbit x k = false -> Z.land x (Z.lnot (Z.shiftl 1 k)) = x.
Proof.
  intros Hk Hbit. apply Z.bits_inj'. intros n Hn.
  rewrite (testbit_set_bit x k n false) by lia.
  destruct (Z.eqb_spec n k) as [-> | _]; [now rewrite Hbit | reflexivity].
Qed.

(** X10: construction is idempotent on the registers: constructing the
    driver again on the device a successful construction left behind
    succeeds and leaves every register exactly as the first
    construction left it. *)
Theorem init_idempotent (d : device) :
  reg_get (regs d) _MSA301_REG_PARTID = 0x13 ->
  let d1 := fst (MSA301_init d) in
  snd (MSA301_init d1) = Return tt
  /\ forall a, reg_get (regs (fst (MSA301_init d1))) a = reg_get (regs d1) a.
Proof.
  intros Hid d1.
  assert (Hid1 : reg_get (regs d1) _MSA301_REG_PARTID = 0x13).
  { unfold d1. rewrite MSA301_init_only_config; [exact Hid |].
    unfold config_register. intros [H | [H | H]]; discriminate H. }
  pose proof (MSA301_init_only_config d1) as Hframe.
  destruct (MSA301_init_run d Hid) as (d1' & Hrun & Hodr & Hpm & Hrr).
  assert (Hd1 : d1 = d1') by (unfold d1; now rewrite Hrun).
  destruct (MSA301_init_run d1 Hid1) as (d2 & Hrun2 & Hodr2 & Hpm2 & Hrr2).
  rewrite Hrun2 in *. cbn [fst snd] in *. split; [reflexivity |].
  rewrite Hd1 in *. clear Hd1 d1 Hrun Hrun2.
  assert (Hodr_same : reg_get (regs d2) _MSA301_REG_ODR = reg_get (regs d1') _MSA301_REG_ODR).
  { rewrite Hodr2.
    assert (Hbyte : is_byte (reg_get (regs d1') _MSA301_REG_ODR))
      by (rewrite Hodr; apply is_byte_land_255).
    assert (Hbits : forall k, 5 <= k <= 7 ->
              Z.testbit (reg_get (regs d1') _MSA301_REG_ODR) k = false).
    { intros k Hk. rewrite Hodr.
      destruct (field_shape DataRate) as (Hmask & Hnb & _).
      rewrite (field_put_frame _ _ _ Hmask eq_refl Hnb) by (simpl; lia).
      rewrite !Z.land_spec, !Z.lnot_spec by lia.
      assert (k = 5 \/ k = 6 \/ k = 7) as [-> | [-> | ->]] by lia; cbn;
        now rewrite ?Bool.andb_false_r. }
    change 128 with (Z.shiftl 1 7). change 64 with (Z.shiftl 1 6).
    change 32 with (Z.shiftl 1 5).
    rewrite (land_lnot_bit_clear (reg_get (regs d1') _MSA301_REG_ODR) 7)
      by (lia || (apply Hbits; lia)).
    rewrite (land_lnot_bit_clear (reg_get (regs d1') _MSA301_REG_ODR) 6)
      by (lia || (apply Hbits; lia)).
    rewrite (land_lnot_bit_clear (reg_get (regs d1') _MSA301_REG_ODR) 5)
      by (lia || (apply Hbits; lia)).
    replace 9 with (field_of (descriptor DataRate) (reg_get (regs d1') _MSA301_REG_ODR)) at 1.
    - now apply (field_put_of DataRate).
    - rewrite Hodr. apply (field_of_put_same DataRate). simpl; lia. }
  assert (Hpm_same :
            reg_get (regs d2) _MSA301_REG_POWERMODE = reg_get (regs d1') _MSA301_REG_POWERMODE).
  { rewrite Hpm2.
    assert (Hbyte : is_byte (reg_get (regs d1') _MSA301_REG_POWERMODE))
      by (rewrite Hpm; apply is_byte_land_255).
    replace 0 with (field_of (descriptor PowerMode) (reg_get (regs d1') _MSA301_REG_POWERMODE))
      at 1.
    - rewrite (field_put_of PowerMode) by exact Hbyte.
      replace 9 with (field_of (descriptor Bandwidth) (reg_get (regs d1') _MSA301_REG_POWERMODE))
        at 1.
      + now apply (field_put_of Bandwidth).
      + rewrite Hpm. apply (field_of_put_same Bandwidth). simpl; lia.
    - rewrite Hpm.
      rewrite (field_of_put_other PowerMode Bandwidth)
        by (discriminate || reflexivity || (simpl; lia)).
      apply (field_of_put_same PowerMode). simpl; lia. }
  assert (Hrr_same :
            reg_get (regs d2) _MSA301_REG_RESRANGE = reg_get (regs d1') _MSA301_REG_RESRANGE).
  { rewrite Hrr2.
    assert (Hbyte : is_byte (reg_get (regs d1') _MSA301_REG_RESRANGE))
      by (rewrite Hrr; apply is_byte_land_255).
    replace 1 with (field_of (descriptor Range) (reg_get (regs d1') _MSA301_REG_RESRANGE))
      at 1.
    - rewrite (field_put_of Range) by exact Hbyte.
      replace 0 with (field_of (descriptor Resolution) (reg_get (regs d1') _MSA301_REG_RESRANGE))
        at 1.
      + now apply (field_put_of Resolution).
      + rewrite Hrr. apply (field_of_put_same Resolution). simpl; lia.
    - rewrite Hrr.
      rewrite (field_of_put_other Range Resolution)
        by (discriminate || reflexivity || (simpl; lia)).
      apply (field_of_put_same Range). simpl; lia. }
  intros a.
  destruct (Z.eq_dec a _MSA301_REG_RESRANGE) as [-> | H1]; [exact Hrr_same |].
  destruct (Z.eq_dec a _MSA301_REG_ODR) as [-> | H2]; [exact Hodr_same |].
  destruct (Z.eq_dec a _MSA301_REG_POWERMODE) as [-> | H3]; [exact Hpm_same |].
  apply Hframe. unfold config_register. tauto.
Qed.

Lemma init_idempotent_witness :
  reg_get (regs (fresh [(0x01, 0x13); (0x10, 0xFF)])) _MSA301_REG_PARTID = 0x13
  /\ snd (MSA301_init (fst (MSA301_init (fresh [(0x01, 0x13); (0x10, 0xFF)])))) = Return tt.
Proof.
  split; [reflexivity |].
  exact (proj1 (init_idempotent (fresh [(0x01, 0x13); (0x10, 0xFF)]) eq_refl)).
Defined.

(** * Readings after configuration *)

(** X11: the first reading after a successful construction is scaled
    for +-4g: whatever the range register held before, each axis is
    (shifted_value / 2048.0) * 9.806, and construction did not disturb
    the six output registers. *)
Theorem acceleration_after_init (d : device) (xl xh yl yh zl zh : Z) :
  reg_get (regs d) _MSA301_REG_PARTID = 0x13 ->
  Forall is_byte [xl; xh; yl; yh; zl; zh] ->
  reg_load (regs d) _MSA301_REG_OUT_X_L 6 = [xl; xh; yl; yh; zl; zh] ->
  let mps2 (shifted_value : Z) : float :=
    (float_of_int shifted_value / 2048.0 * 9.806)%float in
  snd ((MSA301_init ;;; acceleration) d) =
    Return (mps2 (Z.shiftr (signed16 (xl + 256 * xh)) 2),
            mps2 (Z.shiftr (signed16 (yl + 256 * yh)) 2),
            mps2 (Z.shiftr (signed16 (zl + 256 * zh)) 2)).
Proof.
  intros Hid Hall Hregs mps2.
  pose proof (MSA301_init_only_config d) as Hframe.
  destruct (MSA301_init_run d Hid) as (d' & Hrun & _ & _ & Hrr).
  rewrite Hrun in Hframe. cbn [fst] in Hframe.
  rewrite (bind_Return _ _ _ _ _ Hrun).
  assert (Hout : reg_load (regs d') _MSA301_REG_OUT_X_L 6 = [xl; xh; yl; yh; zl; zh]).
  { rewrite <- Hregs. apply reg_load_ext. intros k Hk. apply Hframe.
    unfold _MSA301_REG_OUT_X_L in Hk. change (Z.of_nat 6) with 6 in Hk.
    unfold config_register, _MSA301_REG_RESRANGE, _MSA301_REG_ODR, _MSA301_REG_POWERMODE.
    lia. }
  rewrite (acceleration_value d' _ _ _ _ _ _ Hall Hout).
  rewrite Hrr.
  rewrite (field_of_put_other Range Resolution)
    by (discriminate || reflexivity || (simpl; lia)).
  rewrite (field_of_put_same Range) by (simpl; lia).
  reflexivity.
Qed.

Lemma acceleration_after_init_witness :
  reg_get (regs (fresh [(0x01, 0x13); (2, 0x04); (0x0F, 0x03)])) _MSA301_REG_PARTID = 0x13
  /\ Forall is_byte [0x04; 0x00; 0x00; 0x00; 0x00; 0x00]
  /\ reg_load (regs (fresh [(0x01, 0x13); (2, 0x04); (0x0F, 0x03)])) _MSA301_REG_OUT_X_L 6
     = [0x04; 0x00; 0x00; 0x00; 0x00; 0x00]
  /\ snd ((MSA301_init ;;; acceleration) (fresh [(0x01, 0x13); (2, 0x04); (0x0F, 0x03)])) =
       Return ((1 / 2048 * 9.806)%float, (0 / 2048 * 9.806)%float, (0 / 2048 * 9.806)%float).
Proof.
  assert (Hbytes : Forall is_byte [0x04; 0x00; 0x00; 0x00; 0x00; 0x00])
    by (repeat constructor; unfold is_byte; lia).
  split; [reflexivity |]. split; [exact Hbytes |]. split; [reflexivity |].
  exact (acceleration_after_init (fresh [(0x01, 0x13); (2, 0x04); (0x0F, 0x03)])
           0x04 0x00 0x00 0x00 0x00 0x00 eq_refl Hbytes eq_refl).
Defined.

(** X12: the scale follows the range written: for each range code r in
    0..3, setting range to r and then reading gives, per axis,
    (shifted_value / divisor) * 9.806 with divisor entry r of 4096.0,
    2048.0, 1024.0, 512.0; the reading uses the range in force when it
    is taken, not one remembered from construction. *)
Theorem acceleration_after_range_set (d : device) (r xl xh yl yh zl zh : Z) :
  0 <= r <= 3 ->
  Forall is_byte [xl; xh; yl; yh; zl; zh] ->
  reg_load (regs d) _MSA301_REG_OUT_X_L 6 = [xl; xh; yl; yh; zl; zh] ->
  let mps2 (shifted_value : Z) : float :=
    (float_of_int shifted_value / scale_divisor r * 9.806)%float in
  snd ((Bits_set range r ;;; acceleration) d) =
    Return (mps2 (Z.shiftr (signed16 (xl + 256 * xh)) 2),
            mps2 (Z.shiftr (signed16 (yl + 256 * yh)) 2),
            mps2 (Z.shiftr (signed16 (zl + 256 * zh)) 2)).
Proof.
  intros Hr Hall Hregs mps2.
  rewrite (bind_Return _ _ _ _ _ (Bits_set_byte range r d eq_refl)).
  match goal with |- snd (acceleration ?dev) = _ => set (d' := dev) end.
  assert (Hout : reg_load (regs d') _MSA301_REG_OUT_X_L 6 = [xl; xh; yl; yh; zl; zh]).
  { rewrite <- Hregs. apply reg_load_ext. intros k Hk. unfold d'. cbn [regs].
    apply reg_get_insert_ne.
    unfold _MSA301_REG_OUT_X_L in Hk. change (Z.of_nat 6) with 6 in Hk.
    cbn. unfold _MSA301_REG_RESRANGE. lia. }
  rewrite (acceleration_value d' _ _ _ _ _ _ Hall Hout).
  unfold d'. cbn [regs].
  change (register_address range) with _MSA301_REG_RESRANGE.
  rewrite reg_get_insert_eq.
  rewrite (field_of_put_same Range) by (simpl; lia).
  rewrite scale_of_range_table by exact Hr.
  reflexivity.
Qed.

Lemma acceleration_after_range_set_witness :
  0 <= 3 <= 3
  /\ Forall is_byte [0x00; 0x80; 0xFC; 0xFF; 0x04; 0x00]
  /\ reg_load (regs (fresh [(3, 0x80); (4, 0xFC); (5, 0xFF); (6, 0x04)])) _MSA301_REG_OUT_X_L 6
     = [0x00; 0x80; 0xFC; 0xFF; 0x04; 0x00]
  /\ snd ((Bits_set range Range.RANGE_16_G ;;; acceleration)
            (fresh [(3, 0x80); (4, 0xFC); (5, 0xFF); (6, 0x04)])) =
       Return ((-8192 / 512 * 9.806)%float, (-1 / 512 * 9.806)%float,
               (1 / 512 * 9.806)%float).
Proof.
  assert (Hbytes : Forall is_byte [0x00; 0x80; 0xFC; 0xFF; 0x04; 0x00])
    by (repeat constructor; unfold is_byte; lia).
  split; [lia |]. split; [exact Hbytes |]. split; [reflexivity |].
  exact (acceleration_after_range_set (fresh [(3, 0x80); (4, 0xFC); (5, 0xFF); (6, 0x04)])
           3 0x00 0x80 0xFC 0xFF 0x04 0x00 ltac:(lia) Hbytes eq_refl).
Defined.

(** * The named constants *)

Lemma enum_values_fit (f : field) (c : Z) :
  In c (enum_values f) -> 0 <= c < 2 ^ num_bits f.
Proof.
  destruct f; cbn [enum_values In]; intros Hin;
    repeat (destruct Hin as [<- | Hin]; [vm_compute; split; [discriminate | reflexivity] |]);
    contradiction.
Qed.

(** X13: every named constant of [Mode], [BandWidth], [DataRate],
    [Range] and [Resolution] fits the width of its field: on every
    device, setting the field to the constant and reading it back
    returns the constant, and every other field reads as before. *)
Theorem enum_constants_round_trip (f : field) (c : Z) (d : device) :
  In c (enum_values f) ->
  0 <= c < 2 ^ num_bits f
  /\ snd ((Bits_set (descriptor f) c ;;; Bits_get (descriptor f)) d) = Return c
  /\ forall g, g <> f ->
       snd (Bits_get (descriptor g) (fst (Bits_set (descriptor f) c d)))
       = snd (Bits_get (descriptor g) d).
Proof.
  intros Hin. pose proof (enum_values_fit f c Hin) as Hfit.
  destruct (field_shape f) as (_ & _ & _ & _ & Hw).
  split; [exact Hfit |]. split.
  - rewrite (bind_Return _ _ _ _ _ (Bits_set_byte (descriptor f) c d Hw)).
    rewrite Bits_get_byte by exact Hw. cbn [snd regs].
    rewrite reg_get_insert_eq. f_equal. now apply field_of_put_same.
  - intros g Hne.
    destruct (field_shape g) as (_ & _ & _ & _ & Hwg).
    rewrite Bits_set_byte by exact Hw. cbn [fst].
    rewrite !Bits_get_byte by exact Hwg. cbn [snd regs]. f_equal.
    destruct (Z.eq_dec (register_address (descriptor f)) (register_address (descriptor g)))
      as [Heq | Hdiff].
    + rewrite <- Heq, reg_get_insert_eq.
      apply field_of_put_other; [exact Hne | | exact Hfit].
      unfold same_register. now rewrite Heq.
    + now rewrite reg_get_insert_ne.
Qed.

Lemma enum_constants_round_trip_witness :
  In Mode.SUSPEND (enum_values PowerMode)
  /\ snd ((Bits_set (descriptor PowerMode) Mode.SUSPEND ;;; Bits_get (descriptor PowerMode))
            (fresh [(0x11, 0x1E)])) = Return Mode.SUSPEND.
Proof.
  assert (Hin : In Mode.SUSPEND (enum_values PowerMode)) by (cbn; tauto).
  split; [exact Hin |].
  exact (proj1 (proj2 (enum_constants_round_trip PowerMode Mode.SUSPEND
                         (fresh [(0x11, 0x1E)]) Hin))).
Defined.

(** * The byte shuffle on its own *)

(** X14: for every integer [raw_data], of any size or sign, the loop
    that shifts the bytes out yields exactly six bytes, each in 0..255,
    and they are the little-endian digits of [raw_data] modulo 2^48:
    assembling them again gives [raw_data mod 2^48]. *)
Theorem acc_bytes_digits (raw_data : Z) :
  length (acc_bytes raw_data) = 6%nat
  /\ Forall is_byte (acc_bytes raw_data)
  /\ assemble (acc_bytes raw_data) = raw_data mod 2 ^ 48.
Proof.
  split; [reflexivity |].
  assert (Hbytes : Forall is_byte (acc_bytes raw_data)).
  { unfold acc_bytes. cbn [List.map]. repeat constructor; apply is_byte_land_255. }
  split; [exact Hbytes |].
  revert Hbytes. unfold acc_bytes. cbn [List.map]. intros Hbytes.
  rewrite assemble_six by exact Hbytes.
  rewrite !byte_of_sum by lia.
  change (8 * 0) with 0. change (8 * 1) with 8. change (8 * 2) with 16.
  change (8 * 3) with 24. change (8 * 4) with 32. change (8 * 5) with 40.
  change (2 ^ 0) with 1. change (2 ^ 8) with 256. change (2 ^ 16) with 65536.
  change (2 ^ 24) with 16777216. change (2 ^ 32) with 4294967296.
  change (2 ^ 40) with 1099511627776. change (2 ^ 48) with 281474976710656.
  Z.div_mod_to_equations. lia.
Qed.
